(** * rss.lste: the RSS feed plugin of the LSTE static site generator

    A shallow embedding of [src/rss.py] ([register_hooks], [generate_rss],
    [save_rss_file]) together with the parts of the Python standard library
    the plugin calls ([re.sub], [datetime.strptime], [datetime.strftime],
    [open] in write mode), and the properties of the feed it builds.

    Modelling conventions.
    - A Python [str] is a [string] (a sequence of 8-bit characters); code
      points above 255 are outside the model.
    - A [dict] is a [gmap]; a missing key raises [KeyError].
    - The host object [lste] is mutable and shared: the two hooks are
      computations in a state-and-exception monad over the host object and
      the disk, so that what a raised exception leaves behind is visible.
    - The system clock read by [datetime.utcnow()] is an argument.
    - [lste.hooks.add] is the host's method: [register_hooks] takes it as
      an argument.
    - [open] without [encoding=] uses the encoding of the locale: the disk
      records which characters that encoding can encode. *)

From Stdlib Require Import ZArith Ascii String List Bool Lia DecimalString.
From stdpp Require Import base option gmap strings list.

Local Open Scope Z_scope.

(** ** Strings *)

Module Str.

Definition nl : ascii := "010"%char.
Definition dquote : ascii := "034"%char.

(** One-character strings for the characters that cannot be written
    inside a literal. *)
Definition NL : string := String nl "".
Definition Q : string := String dquote "".

(** [needle in hay] *)
Definition contains (needle hay : string) : Prop :=
  ∃ pre post, hay = pre +:+ needle +:+ post.

Definition ends_with (suffix s : string) : Prop :=
  ∃ pre, s = pre +:+ suffix.

(** [''.join(parts)] *)
Definition join (parts : list string) : string :=
  foldr String.app "" parts.

(** [c not in s] *)
Fixpoint lacks (c : ascii) (s : string) : bool :=
  match s with
  | "" => true
  | String a s' => negb (Ascii.eqb a c) && lacks c s'
  end.

End Str.

(** ** A small backtracking matcher for the two regular expressions used

    [re.sub(r'<.*?>', ...)] in the plugin and the pattern that
    [_strptime.py] compiles from the format ["%d.%m.%Y"].  The matcher
    covers exactly the constructs these patterns use: a literal character,
    a character class, a lazy star over a character class, and a capturing
    group that is an ordered alternation of class sequences. *)

Module Re.

Definition cclass := ascii → bool.

Inductive atom :=
| Lit (c : ascii)
| Cls (f : cclass)
| LazyStar (f : cclass)
| Group (alts : list (list cclass)).

(** [.] without DOTALL: anything but a newline *)
Definition dot : cclass := fun c => negb (Ascii.eqb c Str.nl).

(** [[a-b]] *)
Definition range (a b : ascii) : cclass :=
  fun c => (N_of_ascii a <=? N_of_ascii c)%N && (N_of_ascii c <=? N_of_ascii b)%N.

(** [\d] on 8-bit strings *)
Definition digit : cclass := range "0" "9".

Definition one (a : ascii) : cclass := fun c => Ascii.eqb c a.

(** A sequence of classes against the head of [s]: the text consumed. *)
Fixpoint match_classes (cs : list cclass) (s : string) : option string :=
  match cs with
  | [] => Some ""
  | f :: cs' =>
      match s with
      | String a s' =>
          if f a then String a <$> match_classes cs' s' else None
      | "" => None
      end
  end.

Fixpoint drop (n : nat) (s : string) : string :=
  match n, s with
  | S n', String _ s' => drop n' s'
  | _, _ => s
  end.

(** [pattern.match(s)]: anchored at the start, not at the end.  Returns
    the captured groups, in order, and the number of characters matched
    ([found.end()]).  Alternatives are tried left to right and the next
    one is tried when the rest of the pattern fails; the lazy star tries
    the rest of the pattern before consuming one more character. *)
Fixpoint re_match (p : list atom) (s : string) : option (list string * nat) :=
  match p with
  | [] => Some ([], 0%nat)
  | Lit c :: p' =>
      match s with
      | String a s' =>
          if Ascii.eqb a c then prod_map id S <$> re_match p' s' else None
      | "" => None
      end
  | Cls f :: p' =>
      match s with
      | String a s' =>
          if f a then prod_map id S <$> re_match p' s' else None
      | "" => None
      end
  | LazyStar f :: p' =>
      (fix star (s : string) : option (list string * nat) :=
         match re_match p' s with
         | Some r => Some r
         | None =>
             match s with
             | String a s' => if f a then prod_map id S <$> star s' else None
             | "" => None
             end
         end) s
  | Group alts :: p' =>
      (fix try (alts : list (list cclass)) : option (list string * nat) :=
         match alts with
         | [] => None
         | alt :: more =>
             match match_classes alt s with
             | Some cap =>
                 match re_match p' (drop (String.length cap) s) with
                 | Some (caps, n) => Some (cap :: caps, (String.length cap + n)%nat)
                 | None => try more
                 end
             | None => try more
             end
         end) alts
  end.

(** [re.sub(p, '', s)], scanning left to right.  [skip] counts the
    characters of the current match that are still to be dropped.  With
    the empty replacement an empty match changes nothing, so it is
    treated like no match. *)
Fixpoint sub_empty (p : list atom) (skip : nat) (s : string) : string :=
  match s with
  | "" => ""
  | String c s' =>
      match skip with
      | S k => sub_empty p k s'
      | O =>
          match re_match p s with
          | Some (_, S k) => sub_empty p k s'
          | _ => String c (sub_empty p 0 s')
          end
      end
  end.

End Re.

(** ** Tag stripping: [re.sub(r'<.*?>', '', excerpt)]  (rss.py line 94) *)

Definition tag_pattern : list Re.atom :=
  [Re.Lit "<"; Re.LazyStar Re.dot; Re.Lit ">"].

Definition strip_tags (excerpt : string) : string :=
  Re.sub_empty tag_pattern 0 excerpt.

(** *** What the tag pattern matches *)

Module Tags.

(** [.*?>] read directly: the distance to the first [>] when no newline
    comes before it. *)
Fixpoint closes (s : string) : option nat :=
  match s with
  | "" => None
  | String c s' =>
      if Ascii.eqb c ">" then Some 1%nat
      else if Ascii.eqb c Str.nl then None
      else S <$> closes s'
  end.

(** The length of the match of [<.*?>] at the head of [s]. *)
Definition tag_at (s : string) : option nat :=
  match s with
  | String c s' => if Ascii.eqb c "<" then S <$> closes s' else None
  | "" => None
  end.

(** No position of [s] starts a match. *)
Fixpoint tag_free (s : string) : bool :=
  match s with
  | "" => true
  | String c s' =>
      match tag_at s with
      | Some _ => false
      | None => tag_free s'
      end
  end.

End Tags.

(** ** Exceptions *)

Inductive value_error :=
| NoMatch            (* time data does not match format *)
| UnconvertedData    (* unconverted data remains *)
| OutOfRange         (* year, month or day out of range *)
| NotEncodable.      (* UnicodeEncodeError: a character outside the codec *)

Inductive exn :=
| KeyError (key : string)
| ValueError (why : value_error)
| TypeError
| OSError (path : string).

Inductive result (A : Type) :=
| Ok (a : A)
| Raise (e : exn).
Arguments Ok {A} a.
Arguments Raise {A} e.

(** ** Dates: the parts of [datetime.py] and [_strptime.py] behind
    [datetime.strptime(s, "%d.%m.%Y")] and
    [strftime("%a, %d %b %Y %H:%M:%S +0000")] *)

Module Datetime.

Record datetime := mk_datetime {
  year : Z; month : Z; day : Z;
  hour : Z; minute : Z; second : Z
}.

Definition MINYEAR : Z := 1.
Definition MAXYEAR : Z := 9999.

Definition _is_leap (y : Z) : bool :=
  (y mod 4 =? 0) && (negb (y mod 100 =? 0) || (y mod 400 =? 0)).

Definition _days_before_year (year : Z) : Z :=
  let y := year - 1 in
  y * 365 + y / 4 - y / 100 + y / 400.

Definition _DAYS_IN_MONTH : list Z :=
  [-1; 31; 28; 31; 30; 31; 30; 31; 31; 30; 31; 30; 31].

Definition _DAYS_BEFORE_MONTH : list Z :=
  [-1; 0; 31; 59; 90; 120; 151; 181; 212; 243; 273; 304; 334].

Definition _days_in_month (year month : Z) : Z :=
  if (month =? 2) && _is_leap year then 29
  else nth (Z.to_nat month) _DAYS_IN_MONTH 0.

Definition _days_before_month (year month : Z) : Z :=
  nth (Z.to_nat month) _DAYS_BEFORE_MONTH 0
  + (if (2 <? month) && _is_leap year then 1 else 0).

Definition _ymd2ord (year month day : Z) : Z :=
  _days_before_year year + _days_before_month year month + day.

(** [_check_date_fields]: the constructor's range check *)
Definition _check_date_fields (year month day : Z) : bool :=
  (MINYEAR <=? year) && (year <=? MAXYEAR)
  && (1 <=? month) && (month <=? 12)
  && (1 <=? day) && (day <=? _days_in_month year month).

Definition _check_time_fields (hour minute second : Z) : bool :=
  (0 <=? hour) && (hour <=? 23)
  && (0 <=? minute) && (minute <=? 59)
  && (0 <=? second) && (second <=? 59).

Definition valid (dt : datetime) : bool :=
  _check_date_fields (year dt) (month dt) (day dt)
  && _check_time_fields (hour dt) (minute dt) (second dt).

(** Monday is 0 *)
Definition weekday (dt : datetime) : Z :=
  (_ymd2ord (year dt) (month dt) (day dt) + 6) mod 7.

(** *** Parsing *)

Definition d_alts : list (list Re.cclass) :=
  [ [Re.one "3"; Re.range "0" "1"];
    [Re.range "1" "2"; Re.digit];
    [Re.one "0"; Re.range "1" "9"];
    [Re.range "1" "9"];
    [Re.one " "; Re.range "1" "9"] ].

Definition m_alts : list (list Re.cclass) :=
  [ [Re.one "1"; Re.range "0" "2"];
    [Re.one "0"; Re.range "1" "9"];
    [Re.range "1" "9"] ].

Definition Y_alts : list (list Re.cclass) :=
  [ [Re.digit; Re.digit; Re.digit; Re.digit] ].

(** [TimeRE.pattern("%d.%m.%Y")]: the dots are escaped to literals. *)
Definition dmY_pattern : list Re.atom :=
  [Re.Group d_alts; Re.Lit "."; Re.Group m_alts; Re.Lit "."; Re.Group Y_alts].

Definition digit_val (c : ascii) : option Z :=
  if Re.digit c then Some (Z.of_N (N_of_ascii c) - 48) else None.

Fixpoint int_digits (acc : Z) (s : string) : option Z :=
  match s with
  | "" => Some acc
  | String c s' =>
      match digit_val c with
      | Some d => int_digits (acc * 10 + d) s'
      | None => None
      end
  end.

Fixpoint lstrip (s : string) : string :=
  match s with
  | String c s' => if Ascii.eqb c " " then lstrip s' else s
  | "" => ""
  end.

(** [int(s)] for a decimal numeral, leading blanks ignored *)
Definition py_int (s : string) : option Z :=
  match lstrip s with
  | "" => None
  | t => int_digits 0 t
  end.

(** [datetime.strptime(data_string, "%d.%m.%Y")] *)
Definition strptime_dmY (data_string : string) : result datetime :=
  match Re.re_match dmY_pattern data_string with
  | None => Raise (ValueError NoMatch)
  | Some (groups, found_end) =>
      if negb (String.length data_string =? found_end)%nat
      then Raise (ValueError UnconvertedData)
      else
        match groups with
        | [d; m; Y] =>
            match py_int d, py_int m, py_int Y with
            | Some day, Some month, Some year =>
                if _check_date_fields year month day
                then Ok (mk_datetime year month day 0 0 0)
                else Raise (ValueError OutOfRange)
            | _, _, _ => Raise (ValueError NoMatch)
            end
        | _ => Raise (ValueError NoMatch)
        end
  end.

(** *** Formatting (C locale) *)

Definition a_weekday : list string :=
  ["Mon"; "Tue"; "Wed"; "Thu"; "Fri"; "Sat"; "Sun"].

Definition a_month : list string :=
  [""; "Jan"; "Feb"; "Mar"; "Apr"; "May"; "Jun";
   "Jul"; "Aug"; "Sep"; "Oct"; "Nov"; "Dec"].

(** [%d] of C's printf *)
Definition decimal (n : Z) : string :=
  NilZero.string_of_uint (N.to_uint (Z.to_N n)).

(** [%02d] *)
Definition pad2 (n : Z) : string :=
  if n <? 10 then "0" +:+ decimal n else decimal n.

(** [dt.strftime("%a, %d %b %Y %H:%M:%S +0000")].  [%Y] is the plain
    decimal year, as the C library prints it; the trailing [+0000] is
    literal text of the format, not a computed offset. *)
Definition strftime_rfc822 (dt : datetime) : string :=
  nth (Z.to_nat (weekday dt)) a_weekday "" +:+ ", "
  +:+ pad2 (day dt) +:+ " "
  +:+ nth (Z.to_nat (month dt)) a_month "" +:+ " "
  +:+ decimal (year dt) +:+ " "
  +:+ pad2 (hour dt) +:+ ":" +:+ pad2 (minute dt) +:+ ":" +:+ pad2 (second dt)
  +:+ " +0000".

End Datetime.

(** ** The host: the [lste] site object and the disk *)

(** One entry of [lste.content]: a dict whose text entries ([title],
    [excerpt], ...) are strings and whose [meta] entry, when present, is a
    dict of strings. *)
Record content_item := mk_item {
  item_text : gmap string string;
  item_meta : option (gmap string string)
}.

(** A value of the scratch area [lste.plugin_vars], which all plugins
    share: a string (such as the built feed) or a dict of lists of
    identifiers (such as the article plugin's index). *)
Inductive plugin_var :=
| PVText (s : string)
| PVTable (t : gmap string (list string)).

Inductive handler := GenerateRss | SaveRssFile.

Record lste := mk_lste {
  version : string;
  config_file : gmap string (gmap string string);
  content : gmap string content_item;
  plugin_vars : gmap string plugin_var;
  dist_path : string;
  hooks : list (string * handler)
}.

(** The disk as the process sees it: the directory paths in which a file
    can be created, the text files by path, and the characters that the
    default encoding of [open] (the locale's) can encode. *)
Record disk := mk_disk {
  dirs : gset string;
  files : gmap string string;
  encodes : ascii → bool
}.

(** The default encoding can encode every character of [text]. *)
Definition encodable (d : disk) (text : string) : bool :=
  forallb (encodes d) (list_ascii_of_string text).

Record world := mk_world {
  host : lste;
  fs : disk
}.

(** ** State and exceptions *)

Definition M (A : Type) : Type := world → result A * world.

Definition raise {A} (e : exn) : M A := fun w => (Raise e, w).

Global Instance M_ret : MRet M := fun A a w => (Ok a, w).

(** An exception skips the rest and keeps the state reached so far. *)
Global Instance M_bind : MBind M := fun A B k m w =>
  match m w with
  | (Ok a, w') => k a w'
  | (Raise e, w') => (Raise e, w')
  end.

Definition gets {A} (f : lste → A) : M A := fun w => (Ok (f (host w)), w).

(** [d[key]] *)
Definition getitem {V} (d : gmap string V) (key : string) : M V :=
  match d !! key with
  | Some v => mret v
  | None => raise (KeyError key)
  end.

Definition lift {A} (r : result A) : M A := fun w => (r, w).

(** [lste.plugin_vars[key] = v] *)
Definition set_plugin_var (key : string) (v : plugin_var) : M unit :=
  fun w =>
    let h := host w in
    (Ok tt,
     mk_world
       (mk_lste (version h) (config_file h) (content h)
                (<[key := v]> (plugin_vars h)) (dist_path h) (hooks h))
       (fs w)).

(** *** Files *)

(** The part of [path] before its last [/] *)
Fixpoint dirname (path : string) : string :=
  match path with
  | "" => ""
  | String c rest =>
      if Str.lacks "/" rest
      then ""
      else String c (dirname rest)
  end.

(** [open(path, "w")]: fails when the directory is missing or not
    writable (or [path] is itself a directory); otherwise creates the file
    or truncates it. *)
Definition open_w (path : string) : M unit :=
  fun w =>
    if bool_decide (dirname path ∈ dirs (fs w)) && bool_decide (path ∉ dirs (fs w))
    then (Ok tt,
          mk_world (host w)
            (mk_disk (dirs (fs w)) (<[path := ""]> (files (fs w)))
                     (encodes (fs w))))
    else (Raise (OSError path), w).

(** [handle.write(text)] on a file opened by [open_w].  The text is
    encoded as a whole before anything reaches the file: a character
    outside the encoding raises [UnicodeEncodeError] (a [ValueError]) and
    the file stays as [open_w] left it. *)
Definition write (path : string) (text : string) : M unit :=
  fun w =>
    if encodable (fs w) text then
      let old := default "" (files (fs w) !! path) in
      (Ok tt,
       mk_world (host w)
         (mk_disk (dirs (fs w)) (<[path := old +:+ text]> (files (fs w)))
                  (encodes (fs w))))
    else (Raise (ValueError NotEncodable), w).

(** ** The feed templates (rss.py lines 69 to 113) *)

(** Line 69: the root element with its namespace declarations. *)
Definition rss_open : string :=
  "<rss xmlns:content=" +:+ Str.Q +:+ "http://purl.org/rss/1.0/modules/content/" +:+ Str.Q +:+
  " xmlns:wfw=" +:+ Str.Q +:+ "http://wellformedweb.org/CommentAPI/" +:+ Str.Q +:+
  " xmlns:dc=" +:+ Str.Q +:+ "http://purl.org/dc/elements/1.1/" +:+ Str.Q +:+
  " xmlns:atom=" +:+ Str.Q +:+ "http://www.w3.org/2005/Atom" +:+ Str.Q +:+
  " xmlns:sy=" +:+ Str.Q +:+ "http://purl.org/rss/1.0/modules/syndication/" +:+ Str.Q +:+
  " xmlns:slash=" +:+ Str.Q +:+ "http://purl.org/rss/1.0/modules/slash/" +:+ Str.Q
  +:+ " version=" +:+ Str.Q +:+ "2.0" +:+ Str.Q +:+ ">".

(** Lines 70 to 89: the channel header. *)
Definition channel_block
    (title home_url description formatted_date language version
     contact author image : string) : string :=
  Str.NL +:+ "        <channel>"
  +:+ Str.NL +:+ "            <title>" +:+ title +:+ "</title>"
  +:+ Str.NL +:+ "            <atom:link href=" +:+ Str.Q +:+ home_url +:+ "/rss.xml" +:+ Str.Q +:+ " rel=" +:+ Str.Q +:+ "self" +:+ Str.Q +:+ " type=" +:+ Str.Q +:+ "application/rss+xml" +:+ Str.Q +:+ "/>"
  +:+ Str.NL +:+ "            <link>" +:+ home_url +:+ "</link>"
  +:+ Str.NL +:+ "            <description>" +:+ description +:+ "</description>"
  +:+ Str.NL +:+ "            <lastBuildDate>" +:+ formatted_date +:+ "</lastBuildDate>"
  +:+ Str.NL +:+ "            <language>" +:+ language +:+ "</language>"
  +:+ Str.NL +:+ "            <generator>LSTE " +:+ version +:+ "</generator>"
  +:+ Str.NL +:+ "            <sy:updatePeriod>hourly</sy:updatePeriod>"
  +:+ Str.NL +:+ "            <sy:updateFrequency>1</sy:updateFrequency>"
  +:+ Str.NL +:+ "            <managingEditor>" +:+ contact +:+ " (" +:+ author +:+ ")</managingEditor>"
  +:+ Str.NL +:+ "            <webMaster>" +:+ contact +:+ " (" +:+ author +:+ ")</webMaster>"
  +:+ Str.NL +:+ "            <image>"
  +:+ Str.NL +:+ "                <url>" +:+ image +:+ "</url>"
  +:+ Str.NL +:+ "                <title>" +:+ title +:+ "</title>"
  +:+ Str.NL +:+ "                <link>" +:+ home_url +:+ "</link>"
  +:+ Str.NL +:+ "                <width>32</width>"
  +:+ Str.NL +:+ "                <height>32</height>"
  +:+ Str.NL +:+ "            </image>".

(** Lines 99 to 110: one item. *)
Definition item_block
    (title home_url permalink formatted_date contact author
     excerpt_stripped : string) : string :=
  Str.NL +:+ "            <item>"
  +:+ Str.NL +:+ "                <title>" +:+ title +:+ "</title>"
  +:+ Str.NL +:+ "                <link>" +:+ home_url +:+ "/" +:+ permalink +:+ "</link>"
  +:+ Str.NL +:+ "                <pubDate>" +:+ formatted_date +:+ "</pubDate>"
  +:+ Str.NL +:+ "                <author>" +:+ contact +:+ " (" +:+ author +:+ ")</author>"
  +:+ Str.NL +:+ "                <guid isPermaLink=" +:+ Str.Q +:+ "true" +:+ Str.Q +:+ ">" +:+ home_url +:+ "/" +:+ permalink +:+ "</guid>"
  +:+ Str.NL +:+ "                <description>" +:+ excerpt_stripped +:+ "</description>"
  +:+ Str.NL +:+ "                <content:encoded>"
  +:+ Str.NL +:+ "                    <![CDATA[ " +:+ excerpt_stripped +:+ " ]]>"
  +:+ Str.NL +:+ "                </content:encoded>"
  +:+ Str.NL +:+ "            </item>".

(** Line 113 *)
Definition rss_close : string := "</channel></rss>".

(** ** The plugin *)

(** [lste.config_file[section][key]] *)
Definition config (section key : string) : M string :=
  cf ← gets config_file;
  sec ← getitem cf section;
  getitem sec key.

(** [content['meta']] *)
Definition getmeta (c : content_item) : M (gmap string string) :=
  match item_meta c with
  | Some meta => mret meta
  | None => raise (KeyError "meta")
  end.

(** [lste.plugin_vars['articles']['articles']]; indexing a string with a
    string is a [TypeError]. *)
Definition article_index : M (list string) :=
  pv ← gets plugin_vars;
  v ← getitem pv "articles";
  match v with
  | PVTable t => getitem t "articles"
  | PVText _ => raise TypeError
  end.

(** Lines 93 to 110: the text one pass of the loop appends. *)
Definition item_entry (home_url contact author article : string) : M string :=
  store ← gets content;
  content ← getitem store article;
  excerpt ← getitem (item_text content) "excerpt";
  let excerpt_stripped := strip_tags excerpt in
  meta ← getmeta content;
  date ← getitem meta "date";
  date_obj ← lift (Datetime.strptime_dmY date);
  let formatted_date := Datetime.strftime_rfc822 date_obj in
  title ← getitem (item_text content) "title";
  meta ← getmeta content;
  permalink ← getitem meta "permalink";
  mret (item_block title home_url permalink formatted_date contact author
          excerpt_stripped).

(** Lines 92 to 110: the loop over the article index. *)
Fixpoint for_articles (home_url contact author : string)
    (articles : list string) (feed_content : string) : M string :=
  match articles with
  | [] => mret feed_content
  | article :: rest =>
      item ← item_entry home_url contact author article;
      for_articles home_url contact author rest (feed_content +:+ item)
  end.

Definition generate_rss (now : Datetime.datetime) : M lste :=
  version ← gets version;
  title ← config "lste" "title";
  description ← config "lste" "description";
  home_url ← config "rss" "home_url";
  language ← config "rss" "language";
  contact ← config "rss" "contact";
  author ← config "rss" "author";
  image ← config "rss" "image";
  let formatted_date := Datetime.strftime_rfc822 now in
  let feed_content := rss_open in
  let feed_content :=
    feed_content +:+
    channel_block title home_url description formatted_date language version
      contact author image in
  articles ← article_index;
  feed_content ← for_articles home_url contact author articles feed_content;
  let feed_content := feed_content +:+ rss_close in
  set_plugin_var "rss" (PVText feed_content);;
  gets id.

Definition save_rss_file : M lste :=
  pv ← gets plugin_vars;
  feed_content ← getitem pv "rss";
  dist ← gets dist_path;
  let path := dist +:+ "/feed.xml" in
  open_w path;;
  match feed_content with
  | PVText text => write path text
  | PVTable _ => raise TypeError
  end;;
  gets id.

(** Lines 34 and 35.  [lste.hooks.add] is the host's method; the plugin
    only calls it, so it is a parameter here. *)
Definition register_hooks (add : string → handler → M unit) : M unit :=
  add "after_render_content" GenerateRss;;
  add "after_save_site" SaveRssFile.

(** ** Reading the outcome of a run *)

(** A computation that only reads: whatever it returns or raises, the
    host object and the disk are as before. *)
Definition reads {A} (m : M A) : Prop := ∀ w, (m w).2 = w.

(** ** What the loop body yields *)

(** [block] is the item text for the identifier [article]: the entry
    exists in the content store with an excerpt, a parseable date, a title
    and a permalink, and [block] is the template filled with them. *)
Definition item_of (h : lste) (home_url contact author article block : string) : Prop :=
  ∃ item excerpt meta date date_obj title permalink,
    content h !! article = Some item
    ∧ item_text item !! "excerpt" = Some excerpt
    ∧ item_meta item = Some meta
    ∧ meta !! "date" = Some date
    ∧ Datetime.strptime_dmY date = Ok date_obj
    ∧ item_text item !! "title" = Some title
    ∧ meta !! "permalink" = Some permalink
    ∧ block = item_block title home_url permalink
                (Datetime.strftime_rfc822 date_obj) contact author
                (strip_tags excerpt).

(** ** What [generate_rss] yields *)

Definition config_value (h : lste) (section key value : string) : Prop :=
  ∃ sec, config_file h !! section = Some sec ∧ sec !! key = Some value.

Definition index_of (h : lste) (articles : list string) : Prop :=
  ∃ t, plugin_vars h !! "articles" = Some (PVTable t)
       ∧ t !! "articles" = Some articles.

(** The host object after [lste.plugin_vars['rss'] = feed]. *)
Definition store_feed (h : lste) (feed : string) : lste :=
  mk_lste (version h) (config_file h) (content h)
          (<["rss" := PVText feed]> (plugin_vars h)) (dist_path h) (hooks h).

(** The channel header and the item blocks of a finished feed. *)
Definition feed_parts (h : lste) (now : Datetime.datetime)
    (channel : string) (articles blocks : list string) : Prop :=
  ∃ title description home_url language contact author image,
    config_value h "lste" "title" title
    ∧ config_value h "lste" "description" description
    ∧ config_value h "rss" "home_url" home_url
    ∧ config_value h "rss" "language" language
    ∧ config_value h "rss" "contact" contact
    ∧ config_value h "rss" "author" author
    ∧ config_value h "rss" "image" image
    ∧ channel = channel_block title home_url description
                  (Datetime.strftime_rfc822 now) language (version h)
                  contact author image
    ∧ index_of h articles
    ∧ Forall2 (item_of h home_url contact author) articles blocks.

(** ** The date notation [day.month.year], read directly

    A second definition, from the notation rather than from the matcher:
    one or two digits (or one blank and one digit), a dot, one or two
    digits, a dot, four digits, nothing else, and the three numbers name a
    day of the calendar.  [strptime_dmY] is compared with it below. *)

Module DateText.
Import Datetime.

Fixpoint span_digits (s : string) : string * string :=
  match s with
  | String c s' =>
      if Re.digit c
      then let '(d, r) := span_digits s' in (String c d, r)
      else ("", s)
  | "" => ("", "")
  end.

Definition skip_blank (s : string) : string :=
  match s with
  | String c s' => if Ascii.eqb c " " then s' else s
  | "" => ""
  end.

Definition starts_blank (s : string) : bool :=
  match s with
  | String c _ => Ascii.eqb c " "
  | "" => false
  end.

Definition between (lo hi n : nat) : bool :=
  (lo <=? n)%nat && (n <=? hi)%nat.

Definition spec_dmY (s : string) : option datetime :=
  let '(d, r) := span_digits (skip_blank s) in
  match r with
  | String c r =>
      let '(m, r') := span_digits r in
      match r' with
      | String c' r'' =>
          let '(Y, rest) := span_digits r'' in
          if Ascii.eqb c "." && Ascii.eqb c' "."
             && between 1 (if starts_blank s then 1 else 2) (String.length d)
             && between 1 2 (String.length m)
             && between 4 4 (String.length Y)
             && bool_decide (rest = "")
          then
            match int_digits 0 d, int_digits 0 m, int_digits 0 Y with
            | Some day, Some month, Some year =>
                if _check_date_fields year month day
                then Some (mk_datetime year month day 0 0 0)
                else None
            | _, _, _ => None
            end
          else None
      | "" => None
      end
  | "" => None
  end.

Definition is_dmY (s : string) : bool :=
  match spec_dmY s with Some _ => true | None => false end.

Fixpoint is_digits (s : string) : bool :=
  match s with
  | "" => true
  | String c s' => Re.digit c && is_digits s'
  end.

End DateText.

(** ** Vocabulary of the statements *)

(** Substring search, to decide [Str.contains] on given texts. *)
Fixpoint prefixb (p s : string) : bool :=
  match p, s with
  | "", _ => true
  | String a p', String b s' => Ascii.eqb a b && prefixb p' s'
  | String _ _, "" => false
  end.

Fixpoint containsb (needle hay : string) : bool :=
  prefixb needle hay
  || match hay with
     | String _ hay' => containsb needle hay'
     | "" => false
     end.

(** A markup tag: [<], a body, [>]. *)
Definition tag (body : string) : string := "<" +:+ body +:+ ">".


(** The feed a finished build left in the scratch area. *)
Definition built_feed (h : lste) : option string :=
  match plugin_vars h !! "rss" with
  | Some (PVText feed) => Some feed
  | _ => None
  end.

(** The file the writer targets. *)
Definition feed_path (h : lste) : string := dist_path h +:+ "/feed.xml".

(** The number of positions of [hay] at which [needle] starts. *)
Fixpoint occurrences (needle hay : string) : nat :=
  match hay with
  | "" => if prefixb needle "" then 1%nat else 0%nat
  | String _ hay' =>
      ((if prefixb needle hay then 1 else 0) + occurrences needle hay')%nat
  end.

(** [open_w] would succeed on the writer's target. *)
Definition can_write (w : world) : bool :=
  bool_decide (dist_path (host w) ∈ dirs (fs w))
  && bool_decide (feed_path (host w) ∉ dirs (fs w)).

(** The disk after [text] replaced the content of [path]. *)
Definition with_file (d : disk) (path text : string) : disk :=
  mk_disk (dirs d) (<[path := text]> (files d)) (encodes d).

(** The shape of an RFC 822 date in UTC. *)

Definition alpha : Re.cclass :=
  fun c => Re.range "A" "Z" c || Re.range "a" "z" c.

(** [Dow, DD Mon YYYY HH:MM:SS +0000] *)
Definition rfc822_utc : list Re.cclass :=
  [alpha; alpha; alpha; Re.one ","; Re.one " ";
   Re.digit; Re.digit; Re.one " ";
   alpha; alpha; alpha; Re.one " ";
   Re.digit; Re.digit; Re.digit; Re.digit; Re.one " ";
   Re.digit; Re.digit; Re.one ":"; Re.digit; Re.digit; Re.one ":";
   Re.digit; Re.digit;
   Re.one " "; Re.one "+"; Re.one "0"; Re.one "0"; Re.one "0"; Re.one "0"].

(** The whole of [s] matches the classes, one character each. *)
Definition has_shape (shape : list Re.cclass) (s : string) : bool :=
  bool_decide (Re.match_classes shape s = Some s).

(** The image element of the channel header. *)
Definition image_block (image title home_url : string) : string :=
  "<image>"
  +:+ Str.NL +:+ "                <url>" +:+ image +:+ "</url>"
  +:+ Str.NL +:+ "                <title>" +:+ title +:+ "</title>"
  +:+ Str.NL +:+ "                <link>" +:+ home_url +:+ "</link>"
  +:+ Str.NL +:+ "                <width>32</width>"
  +:+ Str.NL +:+ "                <height>32</height>"
  +:+ Str.NL +:+ "            </image>".

(** The self link of the channel header as the template writes it. *)
Definition self_link (href : string) : string :=
  "<atom:link href=" +:+ Str.Q +:+ href +:+ Str.Q
  +:+ " rel=" +:+ Str.Q +:+ "self" +:+ Str.Q.

(** *** Inputs that must stop the build *)

Definition required_config : list (string * string) :=
  [("lste", "title"); ("lste", "description"); ("rss", "home_url");
   ("rss", "language"); ("rss", "contact"); ("rss", "author");
   ("rss", "image")].

(** [lste.config_file[section][key]], when both keys are present *)
Definition config_lookup (h : lste) (section key : string) : option string :=
  config_file h !! section ≫= (.!! key).

Inductive item_field := Title | Excerpt | Date | Permalink.

(** The value of a field the loop body reads, when it is present. *)
Definition field_lookup (item : content_item) (f : item_field) : option string :=
  match f with
  | Title => item_text item !! "title"
  | Excerpt => item_text item !! "excerpt"
  | Date => item_meta item ≫= (.!! "date")
  | Permalink => item_meta item ≫= (.!! "permalink")
  end.

Inductive fatal_input (h : lste) : Prop :=
| missing_config section key :
    (section, key) ∈ required_config →
    config_lookup h section key = None →
    fatal_input h
| missing_field articles article item f :
    index_of h articles → article ∈ articles →
    content h !! article = Some item →
    field_lookup item f = None →
    fatal_input h
| malformed_date articles article item date :
    index_of h articles → article ∈ articles →
    content h !! article = Some item →
    field_lookup item Date = Some date →
    DateText.is_dmY date = false →
    fatal_input h.

(** Texts of digits of a given length, and the day text (a single digit
    may follow one blank). *)
Definition num_text (lo hi : nat) (t : string) : bool :=
  DateText.is_digits t && DateText.between lo hi (String.length t).

Definition day_text (t : string) : bool :=
  num_text 1 2 t
  || match t with
     | String b rest => Ascii.eqb b " " && num_text 1 1 rest
     | "" => false
     end.

(** An error of a lookup or of a value, as opposed to one of a type or of
    the operating system. *)
Definition lookup_or_value_error (e : exn) : Prop :=
  match e with
  | KeyError _ | ValueError _ => True
  | TypeError | OSError _ => False
  end.

(** ** Sample inputs *)

Module Sample.

(** The configuration of the worked example. *)
Definition config_file : gmap string (gmap string string) :=
  {[ "lste" := {[ "title" := "My Site"; "description" := "Desc" ]};
     "rss" := {[ "home_url" := "https://example.com";
                 "language" := "en-us";
                 "contact" := "a@b.com";
                 "author" := "A";
                 "image" := "https://example.com/i.png" ]} ]}.

Definition hello : content_item :=
  mk_item {[ "title" := "Hello"; "excerpt" := "<p>World</p>" ]}
          (Some {[ "date" := "01.02.2024"; "permalink" := "hello" ]}).

Definition second : content_item :=
  mk_item {[ "title" := "Second"; "excerpt" := "plain <b>bold</b>" ]}
          (Some {[ "date" := "29.02.2024"; "permalink" := "second" ]}).

(** The same entry with an ISO date. *)
Definition iso_dated : content_item :=
  mk_item {[ "title" := "Hello"; "excerpt" := "<p>World</p>" ]}
          (Some {[ "date" := "2024-02-01"; "permalink" := "hello" ]}).

Definition now : Datetime.datetime := Datetime.mk_datetime 2026 11 4 14 14 9.

Definition site (content : gmap string content_item) (index : list string)
    : lste :=
  mk_lste "1.0" config_file content
          {[ "articles" := PVTable {[ "articles" := index ]} ]}
          "dist" [].

(** A locale whose encoding takes every character (UTF-8). *)
Definition any_char : ascii → bool := fun _ => true.

Definition disk0 : disk := mk_disk {[ "dist" ]} ∅ any_char.

(** One article. *)
Definition one : world := mk_world (site {[ "a" := hello ]} ["a"]) disk0.

(** Two articles; the index lists them out of date order and one twice. *)
Definition three : world :=
  mk_world (site {[ "a" := hello; "b" := second ]} ["b"; "a"; "b"]) disk0.

(** No article. *)
Definition none : world := mk_world (site ∅ []) disk0.

Definition iso : world := mk_world (site {[ "a" := iso_dated ]} ["a"]) disk0.

Definition channel : string :=
  channel_block "My Site" "https://example.com" "Desc"
    "Wed, 04 Nov 2026 14:14:09 +0000" "en-us" "1.0" "a@b.com" "A"
    "https://example.com/i.png".

Definition hello_block : string :=
  item_block "Hello" "https://example.com" "hello"
    "Thu, 01 Feb 2024 00:00:00 +0000" "a@b.com" "A" "World".

Definition second_block : string :=
  item_block "Second" "https://example.com" "second"
    "Thu, 29 Feb 2024 00:00:00 +0000" "a@b.com" "A" "plain bold".

End Sample.

(** ** Sample results *)

Module Built.

Definition feed_one : string :=
  rss_open +:+ Sample.channel +:+ Sample.hello_block +:+ rss_close.

Definition feed_three : string :=
  rss_open +:+ Sample.channel
  +:+ Str.join [Sample.second_block; Sample.hello_block; Sample.second_block]
  +:+ rss_close.

Definition host_one : lste := store_feed (host Sample.one) feed_one.

(** After the first build and write. *)
Definition saved_one : world :=
  mk_world host_one (with_file Sample.disk0 "dist/feed.xml" feed_one).

(** The host then renders two articles; the scratch area still holds the
    first feed. *)
Definition second_build : world :=
  mk_world (store_feed (host Sample.three) feed_one) (fs saved_one).

Definition host_three : lste := store_feed (host Sample.three) feed_three.

Definition saved_three : world :=
  mk_world host_three (with_file (fs saved_one) "dist/feed.xml" feed_three).

End Built.

(** ** Vocabulary of the further properties *)

(** [s.count(c)] *)
Fixpoint count_char (c : ascii) (s : string) : nat :=
  match s with
  | "" => 0%nat
  | String a s' => ((if Ascii.eqb a c then 1 else 0) + count_char c s')%nat
  end.

(** The first [k] characters of [s] hold no [c]. *)
Fixpoint lacks_within (c : ascii) (k : nat) (s : string) : bool :=
  match k, s with
  | S k', String a s' => negb (Ascii.eqb a c) && lacks_within c k' s'
  | _, _ => true
  end.

(** *** Inputs on which the build succeeds *)

Definition config_ready (h : lste) : bool :=
  forallb (fun sk : string * string =>
             match config_lookup h sk.1 sk.2 with
             | Some _ => true
             | None => false
             end) required_config.

(** The article index, when the scratch area holds one. *)
Definition index_lookup (h : lste) : option (list string) :=
  match plugin_vars h !! "articles" with
  | Some (PVTable t) => t !! "articles"
  | _ => None
  end.

Definition item_ready (item : content_item) : bool :=
  match field_lookup item Title, field_lookup item Excerpt,
        field_lookup item Date, field_lookup item Permalink with
  | Some _, Some _, Some date, Some _ => DateText.is_dmY date
  | _, _, _, _ => false
  end.

Definition article_ready (h : lste) (article : string) : bool :=
  match content h !! article with
  | Some item => item_ready item
  | None => false
  end.

Definition ready (h : lste) : bool :=
  config_ready h
  && match index_lookup h with
     | Some articles => forallb (article_ready h) articles
     | None => false
     end.

(** ** Further sample inputs *)

Module Sample2.

(** A configuration without its feed section. *)
Definition no_feed_section : world :=
  mk_world
    (mk_lste "1.0"
       {[ "lste" := {[ "title" := "My Site"; "description" := "Desc" ]} ]}
       {[ "a" := Sample.hello ]}
       {[ "articles" := PVTable {[ "articles" := ["a"] ]} ]}
       "dist" [])
    Sample.disk0.

(** The article plugin has not run. *)
Definition no_index : world :=
  mk_world
    (mk_lste "1.0" Sample.config_file {[ "a" := Sample.hello ]} ∅ "dist" [])
    Sample.disk0.

(** The index names an article that the content store does not hold. *)
Definition dangling : world :=
  mk_world (Sample.site {[ "a" := Sample.hello ]} ["a"; "gone"; "a"])
    Sample.disk0.

(** The content store holds an entry the index does not list. *)
Definition with_draft : world :=
  mk_world
    (Sample.site {[ "a" := Sample.hello; "draft" := Sample.iso_dated ]} ["a"])
    Sample.disk0.

(** No output directory. *)
Definition no_dist : world :=
  mk_world Built.host_one
    (mk_disk ∅ {[ "other.txt" := "kept" ]} Sample.any_char).

(** The scratch entry [rss] is not a string, and an older feed exists. *)
Definition not_text : world :=
  mk_world
    (mk_lste "1.0" Sample.config_file ∅ {[ "rss" := PVTable ∅ ]} "dist" [])
    (mk_disk {[ "dist" ]} {[ "dist/feed.xml" := "old feed" ]}
       Sample.any_char).

(** A locale whose encoding is ASCII. *)
Definition ascii_only : ascii → bool := fun c => (N_of_ascii c <? 128)%N.

(** A feed with a character outside ASCII (code point 233), to be written
    under an ASCII locale over an older feed. *)
Definition accented : string := "caf" +:+ String "233"%char "".

Definition ascii_locale : world :=
  mk_world
    (mk_lste "1.0" Sample.config_file ∅ {[ "rss" := PVText accented ]}
       "dist" [])
    (mk_disk {[ "dist" ]} {[ "dist/feed.xml" := "old feed" ]} ascii_only).

End Sample2.



(** ** Counting the blocks of a document *)

(** No end of [a] begins a [needle] that the text after [a] could
    complete: an end of [a] that is a prefix of [needle] holds the whole of
    it. *)
Fixpoint clean_end (needle a : string) : bool :=
  match a with
  | "" => true
  | String _ a' =>
      (negb (prefixb a needle) || prefixb needle a) && clean_end needle a'
  end.

(** The first character of [b] is none of those with which [needle] goes
    on after its first. *)
Definition head_free (needle b : string) : bool :=
  match needle, b with
  | String _ tail, String c _ => Str.lacks c tail
  | _, _ => true
  end.

Definition value_lacks (needle : string) (v : option string) : bool :=
  match v with
  | Some s => negb (containsb needle s)
  | None => true
  end.

Definition article_lacks (needle : string) (h : lste) (article : string)
    : bool :=
  match content h !! article with
  | Some item =>
      value_lacks needle (field_lookup item Title)
      && value_lacks needle (field_lookup item Permalink)
  | None => true
  end.

(** None of the texts that the build copies into the document as they
    are contains [needle]: the version, the seven configuration values,
    and the title and the permalink of each article of the index. *)
Definition inputs_lack (needle : string) (h : lste) (articles : list string)
    : bool :=
  negb (containsb needle (version h))
  && forallb (fun sk : string * string =>
                value_lacks needle (config_lookup h sk.1 sk.2))
       required_config
  && forallb (article_lacks needle h) articles.

(** The first and the last line of an item block. *)
Definition item_opening : string := Str.NL +:+ "            <item>".
Definition item_closing : string := Str.NL +:+ "            </item>".
Definition channel_opening : string := Str.NL +:+ "        <channel>".

(** ** Sample inputs with markup in the wrong place *)

Module Sample3.

(** A title that closes its own item and opens another. *)
Definition forged : content_item :=
  mk_item {[ "title" := "x</title></item><item><title>y";
             "excerpt" := "<p>World</p>" ]}
          (Some {[ "date" := "01.02.2024"; "permalink" := "hello" ]}).

Definition forged_title : world :=
  mk_world (Sample.site {[ "a" := forged ]} ["a"]) Sample.disk0.










End Sample3.

(** * Properties *)

Module StrFacts.
Import Str.

Lemma app_cons c s t : String c s +:+ t = String c (s +:+ t).
Proof. reflexivity. Qed.

Lemma app_nil_l s : "" +:+ s = s.
Proof. reflexivity. Qed.

Lemma app_nil_r s : s +:+ "" = s.
Proof. induction s as [|c s IH]; [done|]. by rewrite app_cons, IH. Qed.

Lemma app_assoc s t u : (s +:+ t) +:+ u = s +:+ t +:+ u.
Proof. induction s as [|c s IH]; [done|]. by rewrite !app_cons, IH. Qed.

Lemma app_assoc3 a b c d : ((a +:+ b) +:+ c) +:+ d = a +:+ b +:+ c +:+ d.
Proof. by rewrite !app_assoc. Qed.

Lemma length_app s t :
  String.length (s +:+ t) = (String.length s + String.length t)%nat.
Proof. induction s as [|c s IH]; [done|]. rewrite app_cons. simpl. by rewrite IH. Qed.

Lemma contains_refl s : contains s s.
Proof. exists "", "". by rewrite app_nil_l, app_nil_r. Qed.

Lemma contains_trans a b c : contains a b → contains b c → contains a c.
Proof.
  intros (p1 & q1 & ->) (p2 & q2 & ->).
  exists (p2 +:+ p1), (q1 +:+ q2). by rewrite !app_assoc.
Qed.

Lemma contains_app_l a s t : contains a s → contains a (s +:+ t).
Proof.
  intros (p & q & ->). exists p, (q +:+ t). by rewrite !app_assoc.
Qed.

Lemma contains_app_r a s t : contains a t → contains a (s +:+ t).
Proof.
  intros (p & q & ->). exists (s +:+ p), q. by rewrite !app_assoc.
Qed.

Lemma lacks_app c s t : lacks c (s +:+ t) = lacks c s && lacks c t.
Proof.
  induction s as [|a s IH]; [done|].
  rewrite app_cons. simpl. rewrite IH. by rewrite andb_assoc.
Qed.

End StrFacts.

Module TagsFacts.
Import Tags.

Lemma re_match_close s :
  Re.re_match [Re.LazyStar Re.dot; Re.Lit ">"] s = (λ n, ([], n)) <$> closes s.
Proof.
  induction s as [|c s IH]; [done|].
  cbn [Re.re_match] in *. cbn [closes].
  destruct (Ascii.eqb c ">") eqn:Hgt; [done|].
  unfold Re.dot at 1.
  destruct (Ascii.eqb c Str.nl); cbn [negb]; [done|].
  rewrite IH. by destruct (closes s).
Qed.

Lemma re_match_tag s :
  Re.re_match tag_pattern s = (λ n, ([], n)) <$> tag_at s.
Proof.
  destruct s as [|c s]; [done|].
  unfold tag_pattern. cbn [Re.re_match tag_at].
  destruct (Ascii.eqb c "<"); [|done].
  change ((fix star (s0 : string) : option (list string * nat) := _) s)
    with (Re.re_match [Re.LazyStar Re.dot; Re.Lit ">"] s).
  rewrite re_match_close. by destruct (closes s).
Qed.

Local Abbreviation sub := (Re.sub_empty tag_pattern).

Lemma tag_at_pos s : tag_at s ≠ Some 0%nat.
Proof.
  destruct s as [|c s]; [done|]. cbn [tag_at].
  destruct (Ascii.eqb c "<"); [|done]. by destruct (closes s).
Qed.

(** The three ways one step of the scan can go. *)
Lemma sub_skip k c s : sub (S k) (String c s) = sub k s.
Proof. reflexivity. Qed.

Lemma sub_tag c s k :
  tag_at (String c s) = Some (S k) → sub 0 (String c s) = sub k s.
Proof.
  intros H. cbn [Re.sub_empty]. by rewrite re_match_tag, H.
Qed.

Lemma sub_keep c s :
  tag_at (String c s) = None → sub 0 (String c s) = String c (sub 0 s).
Proof.
  intros H. cbn [Re.sub_empty]. by rewrite re_match_tag, H.
Qed.

Lemma tag_at_cases s :
  tag_at s = None ∨ ∃ k, tag_at s = Some (S k).
Proof.
  destruct (tag_at s) as [[|k]|] eqn:H; eauto.
  by destruct (tag_at_pos s).
Qed.


(** Removing tags removes no newline, so a [>] that closes a line of
    the output closed that line of the input. *)
Lemma closes_sub s k :
  is_Some (closes (sub k s)) → is_Some (closes (Re.drop k s)).
Proof.
  revert k. induction s as [|c s IH]; intros k.
  { destruct k; by intros [? [=]]. }
  destruct k as [|k]; [|rewrite sub_skip; apply IH].
  cbn [Re.drop].
  destruct (tag_at_cases (String c s)) as [Hn|[j Hj]].
  - rewrite (sub_keep _ _ Hn). cbn [closes].
    destruct (Ascii.eqb c ">"); [done|].
    destruct (Ascii.eqb c Str.nl); [done|].
    intros [n Hn']. destruct (closes (sub 0 s)) eqn:E; [|done].
    destruct (IH 0%nat) as [m Hm]; [by rewrite E|].
    cbn [Re.drop] in Hm. destruct s; rewrite Hm; done.
  - intros _. cbn [tag_at] in Hj. cbn [closes].
    destruct (Ascii.eqb_spec c "<") as [->|]; [|done].
    cbn. destruct (closes s); [done|done].
Qed.

Lemma tag_free_sub s k : tag_free (sub k s) = true.
Proof.
  revert k. induction s as [|c s IH]; intros k; [by destruct k|].
  destruct k as [|k]; [|rewrite sub_skip; apply IH].
  destruct (tag_at_cases (String c s)) as [Hn|[j Hj]].
  - rewrite (sub_keep _ _ Hn). cbn [tag_free tag_at].
    cbn [tag_at] in Hn.
    destruct (Ascii.eqb c "<"); [|apply IH].
    destruct (closes (sub 0 s)) eqn:E; [|apply IH].
    destruct (closes_sub s 0) as [m Hm]; [by rewrite E|].
    assert (closes s = Some m) as Hs by (by destruct s).
    by rewrite Hs in Hn.
  - rewrite (sub_tag _ _ _ Hj). apply IH.
Qed.

Lemma sub_tag_free s : tag_free s = true → sub 0 s = s.
Proof.
  induction s as [|c s IH]; [done|]. cbn [tag_free]. intros H.
  destruct (tag_at (String c s)) eqn:E; [done|].
  by rewrite (sub_keep _ _ E), IH.
Qed.

(** *** Tags that span lines *)






(** A text without [<] is kept whole. *)
Lemma sub_no_lt b y :
  Str.lacks "<" b = true → sub 0 (b +:+ y) = b +:+ sub 0 y.
Proof.
  induction b as [|c b IH]; cbn [Str.lacks]; [done|].
  intros [Hc Hb]%andb_prop. rewrite !StrFacts.app_cons, sub_keep, IH; [done..|].
  cbn [tag_at]. apply negb_true_iff in Hc. by rewrite Hc.
Qed.

Lemma lacks_false_split c s :
  Str.lacks c s = false → ∃ s1 s2, s = s1 +:+ String c s2.
Proof.
  induction s as [|a s IH]; [done|]. cbn [Str.lacks].
  destruct (Ascii.eqb_spec a c) as [->|Hne]; cbn [negb andb].
  - intros _. by exists "", s.
  - intros (s1 & s2 & ->)%IH. by exists (String a s1), s2.
Qed.

End TagsFacts.

(** ** Sample evaluations *)

Example strptime_ex1 :
  Datetime.strptime_dmY "01.02.2024" = Ok (Datetime.mk_datetime 2024 2 1 0 0 0).
Proof. vm_compute. reflexivity. Qed.

Example strptime_ex2 :
  Datetime.strptime_dmY "2024-02-01" = Raise (ValueError NoMatch).
Proof. vm_compute. reflexivity. Qed.

Example strptime_ex3 :
  Datetime.strptime_dmY "31.02.2024" = Raise (ValueError OutOfRange).
Proof. vm_compute. reflexivity. Qed.

Example strptime_ex4 :
  Datetime.strptime_dmY "1.2.20245" = Raise (ValueError UnconvertedData).
Proof. vm_compute. reflexivity. Qed.

Example strptime_ex5 :
  Datetime.strptime_dmY " 1.12.0999" = Ok (Datetime.mk_datetime 999 12 1 0 0 0).
Proof. vm_compute. reflexivity. Qed.

Example strftime_ex1 :
  Datetime.strftime_rfc822 (Datetime.mk_datetime 2024 2 1 0 0 0)
  = "Thu, 01 Feb 2024 00:00:00 +0000".
Proof. vm_compute. reflexivity. Qed.

Example strftime_ex2 :
  Datetime.strftime_rfc822 (Datetime.mk_datetime 2026 11 4 14 14 9)
  = "Wed, 04 Nov 2026 14:14:09 +0000".
Proof. vm_compute. reflexivity. Qed.

Example strip_ex1 : strip_tags "<p>World</p>" = "World".
Proof. vm_compute. reflexivity. Qed.

Example strip_ex2 : strip_tags "a <b c> d <e" = "a  d <e".
Proof. vm_compute. reflexivity. Qed.

(** ** Running computations *)

Section running.
Context {A B : Type}.

Lemma bind_run (m : M A) (k : A → M B) w :
  (m ≫= k) w =
  match m w with
  | (Ok a, w') => k a w'
  | (Raise e, w') => (Raise e, w')
  end.
Proof. reflexivity. Qed.

Lemma bind_ok (m : M A) (k : A → M B) w b w2 :
  (m ≫= k) w = (Ok b, w2) ↔ ∃ a w1, m w = (Ok a, w1) ∧ k a w1 = (Ok b, w2).
Proof.
  rewrite bind_run. split.
  - destruct (m w) as [[a|e] w1]; [eauto|done].
  - by intros (a & w1 & -> & ?).
Qed.

Lemma bind_raise (m : M A) (k : A → M B) w e w2 :
  (m ≫= k) w = (Raise e, w2) ↔
  m w = (Raise e, w2) ∨ ∃ a w1, m w = (Ok a, w1) ∧ k a w1 = (Raise e, w2).
Proof.
  rewrite bind_run. split.
  - destruct (m w) as [[a|e'] w1]; [eauto|]. intros [= -> ->]. by left.
  - intros [->|(a & w1 & -> & ?)]; done.
Qed.

Lemma getitem_run {V} (d : gmap string V) key w :
  getitem d key w =
  (match d !! key with Some v => Ok v | None => Raise (KeyError key) end, w).
Proof. unfold getitem. by destruct (d !! key). Qed.

End running.

Lemma reads_ret {A} (a : A) : reads (mret a).
Proof. done. Qed.

Lemma reads_raise {A} e : reads (@raise A e).
Proof. done. Qed.

Lemma reads_gets {A} (f : lste → A) : reads (gets f).
Proof. done. Qed.

Lemma reads_lift {A} (r : result A) : reads (lift r).
Proof. done. Qed.

Lemma reads_getitem {V} (d : gmap string V) key : reads (getitem d key).
Proof. intros w. by rewrite getitem_run. Qed.

Lemma reads_bind {A B} (m : M A) (k : A → M B) :
  reads m → (∀ a, reads (k a)) → reads (m ≫= k).
Proof.
  intros Hm Hk w. rewrite bind_run. specialize (Hm w).
  destruct (m w) as [[a|e] w1]; simpl in Hm; subst w1; [apply Hk|done].
Qed.

Create HintDb reads discriminated.
#[export] Hint Resolve reads_ret reads_raise reads_gets reads_lift
  reads_getitem : reads.

Ltac solve_reads :=
  repeat first
    [ progress eauto with reads
    | apply reads_bind; [|intros ?]
    | match goal with |- reads (match ?x with _ => _ end) => destruct x end ].

Lemma reads_config section key : reads (config section key).
Proof. unfold config. solve_reads. Qed.

Lemma reads_getmeta c : reads (getmeta c).
Proof. unfold getmeta. solve_reads. Qed.

Lemma reads_article_index : reads article_index.
Proof. unfold article_index. solve_reads. Qed.

#[export] Hint Resolve reads_config reads_getmeta reads_article_index : reads.

Lemma reads_item_entry home_url contact author article :
  reads (item_entry home_url contact author article).
Proof. unfold item_entry. solve_reads. Qed.

#[export] Hint Resolve reads_item_entry : reads.

Lemma reads_for_articles home_url contact author articles feed_content :
  reads (for_articles home_url contact author articles feed_content).
Proof.
  revert feed_content.
  induction articles as [|a rest IH]; intros acc; cbn [for_articles]; solve_reads.
Qed.

#[export] Hint Resolve reads_for_articles : reads.

Lemma reads_inv {A} (m : M A) w r w' : reads m → m w = (r, w') → w' = w.
Proof. intros Hm E. specialize (Hm w). by rewrite E in Hm. Qed.

Ltac unfold_M :=
  unfold getmeta, getitem, gets, lift, raise, mbind, M_bind, mret, M_ret in *.

Lemma item_entry_ok home_url contact author article w block w' :
  item_entry home_url contact author article w = (Ok block, w')
  ↔ w' = w ∧ item_of (host w) home_url contact author article block.
Proof.
  split.
  - intros H. split; [by eapply reads_inv, H; auto with reads|].
    unfold item_entry in H. unfold_M.
    repeat case_match; simplify_eq.
    unfold item_of. eauto 20.
  - intros (-> & item & excerpt & meta & date & dt & title & permalink
            & H1 & H2 & H3 & H4 & H5 & H6 & H7 & ->).
    unfold item_entry. unfold_M. by rewrite H1, H2, H3, H4, H5, H6, H7.
Qed.

Lemma for_articles_ok home_url contact author articles acc w feed w' :
  for_articles home_url contact author articles acc w = (Ok feed, w')
  ↔ w' = w ∧ ∃ blocks,
      Forall2 (item_of (host w) home_url contact author) articles blocks
      ∧ feed = acc +:+ Str.join blocks.
Proof.
  revert acc. induction articles as [|a rest IH]; intros acc; cbn [for_articles].
  - split.
    + intros [= <- <-]. split; [done|]. exists []. split; [constructor|].
      by rewrite StrFacts.app_nil_r.
    + intros (-> & blocks & Hb & ->). apply Forall2_nil_inv_l in Hb as ->.
      by rewrite StrFacts.app_nil_r.
  - rewrite bind_ok. split.
    + intros (item & w1 & [-> Hitem]%item_entry_ok & (-> & blocks & Hb & ->)%IH).
      split; [done|]. exists (item :: blocks). split; [by constructor|].
      by rewrite StrFacts.app_assoc.
    + intros (-> & blocks & Hb & ->).
      apply Forall2_cons_inv_l in Hb as (item & blocks' & Hitem & Hb & ->).
      exists item, w. split; [by apply item_entry_ok|].
      apply IH. split; [done|]. exists blocks'. split; [done|].
      by rewrite StrFacts.app_assoc.
Qed.

Lemma config_ok section key w v w' :
  config section key w = (Ok v, w')
  ↔ w' = w ∧ config_value (host w) section key v.
Proof.
  unfold config, config_value. unfold_M. split.
  - intros H. repeat case_match; simplify_eq. eauto.
  - intros (-> & sec & -> & ->). done.
Qed.

Lemma article_index_ok w articles w' :
  article_index w = (Ok articles, w') ↔ w' = w ∧ index_of (host w) articles.
Proof.
  unfold article_index, index_of. unfold_M. split.
  - intros H. repeat case_match; simplify_eq. eauto.
  - intros (-> & t & -> & ->). done.
Qed.

Lemma generate_rss_ok now w h' w' :
  generate_rss now w = (Ok h', w')
  ↔ ∃ channel articles blocks,
      feed_parts (host w) now channel articles blocks
      ∧ h' = store_feed (host w)
               (rss_open +:+ channel +:+ Str.join blocks +:+ rss_close)
      ∧ w' = mk_world h' (fs w).
Proof.
  unfold generate_rss. split.
  - intros H.
    apply bind_ok in H as (ver & w1 & [= <- <-] & H).
    do 7 (let H1 := fresh in
          apply bind_ok in H as (? & ? & H1 & H);
          apply config_ok in H1 as [-> ?]).
    apply bind_ok in H as (arts & ? & Hindex & H).
    apply article_index_ok in Hindex as [-> ?].
    apply bind_ok in H as (feed & ? & Hloop & H).
    apply for_articles_ok in Hloop as (-> & blocks & ? & ->).
    apply bind_ok in H as ([] & ? & [= <-] & [= <- <-]).
    eexists _, arts, blocks. split; [|split].
    + unfold feed_parts. eauto 20.
    + exact (f_equal _ (StrFacts.app_assoc3 _ _ _ _)).
    + reflexivity.
  - intros (channel & arts & blocks & Hp & -> & ->).
    destruct Hp as (title & description & home_url & language & contact & author
                    & image & ? & ? & ? & ? & ? & ? & ? & -> & ? & ?).
    apply bind_ok. eexists _, w. split; [done|].
    repeat (apply bind_ok; eexists _, w; split; [by apply config_ok|]).
    apply bind_ok. eexists arts, w. split; [by apply article_index_ok|].
    apply bind_ok. eexists _, w. split.
    { apply for_articles_ok. split; [done|]. by exists blocks. }
    apply bind_ok. eexists tt, _. split; [reflexivity|].
    unfold gets. cbn [host id].
    exact (f_equal (λ f, (Ok (store_feed (host w) f),
                          mk_world (store_feed (host w) f) (fs w)))
             (StrFacts.app_assoc3 _ _ _ _)).
Qed.

Example spec_dmY_ex1 :
  DateText.spec_dmY "01.02.2024" = Some (Datetime.mk_datetime 2024 2 1 0 0 0).
Proof. vm_compute. reflexivity. Qed.

Example spec_dmY_ex2 : DateText.spec_dmY "2024-02-01" = None.
Proof. vm_compute. reflexivity. Qed.

Example spec_dmY_ex3 : DateText.spec_dmY "29.02.2023" = None.
Proof. vm_compute. reflexivity. Qed.

Example spec_dmY_ex4 :
  DateText.spec_dmY " 9.12.2024" = Some (Datetime.mk_datetime 2024 12 9 0 0 0).
Proof. vm_compute. reflexivity. Qed.

(** ** Substring search *)

Lemma prefixb_app p rest : prefixb p (p +:+ rest) = true.
Proof.
  induction p as [|c p IH]; [done|].
  rewrite StrFacts.app_cons. cbn [prefixb]. by rewrite Ascii.eqb_refl, IH.
Qed.

Lemma prefixb_inv p s : prefixb p s = true → ∃ rest, s = p +:+ rest.
Proof.
  revert s. induction p as [|c p IH]; intros s; [by exists s|].
  destruct s as [|a s]; [done|]. cbn [prefixb].
  intros [->%Ascii.eqb_eq [rest ->]%IH]%andb_prop. by exists rest.
Qed.

Lemma containsb_spec needle hay :
  containsb needle hay = true ↔ Str.contains needle hay.
Proof.
  split.
  - induction hay as [|c hay IH]; cbn [containsb].
    + rewrite orb_false_r. intros [rest ->]%prefixb_inv. by exists "", rest.
    + intros [[rest ->]%prefixb_inv|(pre & post & ->)%IH]%orb_prop.
      * by exists "", rest.
      * by exists (String c pre), post.
  - intros (pre & post & ->). induction pre as [|c pre IH].
    + rewrite StrFacts.app_nil_l.
      destruct (needle +:+ post) eqn:E; cbn [containsb];
        rewrite <-E; by rewrite prefixb_app.
    + rewrite StrFacts.app_cons. cbn [containsb]. by rewrite IH, orb_true_r.
Qed.

Lemma contains_join block blocks :
  block ∈ blocks → Str.contains block (Str.join blocks).
Proof.
  induction 1 as [b l|b b' l _ IH]; cbn [Str.join foldr].
  - apply StrFacts.contains_app_l, StrFacts.contains_refl.
  - by apply StrFacts.contains_app_r.
Qed.

(** A needle [n1 x n2] sits in a text whose next segments are a literal
    ending in [n1], then [x], then a literal starting with [n2]. *)
Lemma contains_mid sp n1 x n2 rest :
  Str.contains (n1 +:+ x +:+ n2) ((sp +:+ n1) +:+ x +:+ n2 +:+ rest).
Proof. exists sp, rest. by rewrite !StrFacts.app_assoc. Qed.

Lemma contains_lit sp n rest : Str.contains n ((sp +:+ n) +:+ rest).
Proof. exists sp, rest. by rewrite !StrFacts.app_assoc. Qed.

(** ** C7 *)

(** C7. Tag stripping is idempotent: for every string, stripping the
    result of a stripping pass again changes nothing. *)
Theorem strip_tags_idempotent (s : string) :
  strip_tags (strip_tags s) = strip_tags s.
Proof.
  unfold strip_tags. apply TagsFacts.sub_tag_free, TagsFacts.tag_free_sub.
Qed.

(** ** Tags that span lines *)


(** ** What the templates contain *)

(** Walk down a right-nested concatenation until the needle is found. *)
Ltac find_mid sp n1 x n2 :=
  first [ apply (contains_mid sp n1 x n2)
        | apply StrFacts.contains_app_r; find_mid sp n1 x n2 ].

Ltac find_lit sp n :=
  first [ apply (contains_lit sp n)
        | exists sp, ""; reflexivity
        | apply StrFacts.contains_app_r; find_lit sp n ].

Lemma item_block_description t h p d c a e :
  Str.contains ("<description>" +:+ e +:+ "</description>")
    (item_block t h p d c a e).
Proof.
  unfold item_block.
  find_mid "                " "<description>" e "</description>".
Qed.

Lemma item_block_cdata t h p d c a e :
  Str.contains ("<![CDATA[ " +:+ e +:+ " ]]>") (item_block t h p d c a e).
Proof.
  unfold item_block.
  find_mid "                    " "<![CDATA[ " e " ]]>".
Qed.

Lemma item_block_pubDate t h p d c a e :
  Str.contains ("<pubDate>" +:+ d +:+ "</pubDate>") (item_block t h p d c a e).
Proof.
  unfold item_block.
  find_mid "                " "<pubDate>" d "</pubDate>".
Qed.

Lemma item_block_title t h p d c a e :
  Str.contains ("<title>" +:+ t +:+ "</title>") (item_block t h p d c a e).
Proof.
  unfold item_block.
  find_mid "                " "<title>" t "</title>".
Qed.

Lemma contains_mid2 sp n1 x n2 y n3 rest :
  Str.contains (n1 +:+ x +:+ n2 +:+ y +:+ n3)
    ((sp +:+ n1) +:+ x +:+ n2 +:+ y +:+ n3 +:+ rest).
Proof. exists sp, rest. by rewrite !StrFacts.app_assoc. Qed.

Ltac find_mid2 sp n1 x n2 y n3 :=
  first [ apply (contains_mid2 sp n1 x n2 y n3)
        | apply StrFacts.contains_app_r; find_mid2 sp n1 x n2 y n3 ].

Lemma item_block_link t h p d c a e :
  Str.contains ("<link>" +:+ h +:+ "/" +:+ p +:+ "</link>")
    (item_block t h p d c a e).
Proof.
  unfold item_block.
  find_mid2 "                " "<link>" h "/" p "</link>".
Qed.

(** The same walk for a needle written with the segments of the
    template; [sp] is the indentation that precedes it. *)
Ltac find_from sp :=
  first [ (eexists sp, _; rewrite ?StrFacts.app_assoc; reflexivity)
        | (exists sp, ""; rewrite StrFacts.app_nil_r, ?StrFacts.app_assoc;
           reflexivity)
        | apply StrFacts.contains_app_r; find_from sp ].

Lemma item_block_guid t h p d c a e :
  Str.contains
    ("<guid isPermaLink=" +:+ Str.Q +:+ "true" +:+ Str.Q +:+ ">"
     +:+ h +:+ "/" +:+ p +:+ "</guid>")
    (item_block t h p d c a e).
Proof.
  unfold item_block. find_from "                ".
Qed.

(** ** Sample runs *)

Example run_one :
  generate_rss Sample.now Sample.one
  = (let h := store_feed (host Sample.one)
                (rss_open +:+ Sample.channel +:+ Sample.hello_block +:+ rss_close)
     in (Ok h, mk_world h Sample.disk0)).
Proof. vm_compute. reflexivity. Qed.

Example run_three :
  generate_rss Sample.now Sample.three
  = (let h := store_feed (host Sample.three)
                (rss_open +:+ Sample.channel
                 +:+ Str.join [Sample.second_block; Sample.hello_block;
                               Sample.second_block]
                 +:+ rss_close)
     in (Ok h, mk_world h Sample.disk0)).
Proof. vm_compute. reflexivity. Qed.

Example run_none :
  generate_rss Sample.now Sample.none
  = (let h := store_feed (host Sample.none)
                (rss_open +:+ Sample.channel +:+ rss_close)
     in (Ok h, mk_world h Sample.disk0)).
Proof. vm_compute. reflexivity. Qed.

Example run_iso :
  generate_rss Sample.now Sample.iso = (Raise (ValueError NoMatch), Sample.iso).
Proof. vm_compute. reflexivity. Qed.

(** ** What the build stores *)

Lemma built_feed_store h feed : built_feed (store_feed h feed) = Some feed.
Proof. unfold built_feed, store_feed. cbn. by rewrite lookup_insert_eq. Qed.

(** ** The writer *)

Lemma dirname_feed_path d : dirname (d +:+ "/feed.xml") = d.
Proof.
  induction d as [|c d IH]; [done|].
  rewrite StrFacts.app_cons. cbn [dirname].
  rewrite StrFacts.lacks_app, andb_false_r. by rewrite IH.
Qed.

(** Every way [save_rss_file] can go. *)
Lemma save_rss_file_run w :
  save_rss_file w =
  match plugin_vars (host w) !! "rss" with
  | None => (Raise (KeyError "rss"), w)
  | Some v =>
      if can_write w then
        match v with
        | PVText text =>
            if encodable (fs w) text then
              (Ok (host w),
               mk_world (host w) (with_file (fs w) (feed_path (host w)) text))
            else
              (Raise (ValueError NotEncodable),
               mk_world (host w) (with_file (fs w) (feed_path (host w)) ""))
        | PVTable _ =>
            (Raise TypeError,
             mk_world (host w) (with_file (fs w) (feed_path (host w)) ""))
        end
      else (Raise (OSError (feed_path (host w))), w)
  end.
Proof.
  unfold save_rss_file, can_write, feed_path.
  rewrite bind_run. unfold gets at 1. rewrite bind_run, getitem_run.
  destruct (plugin_vars (host w) !! "rss") as [v|]; [|done].
  rewrite bind_run. unfold gets at 1. rewrite bind_run.
  unfold open_w. rewrite dirname_feed_path.
  destruct (bool_decide _ && bool_decide _); [|done].
  rewrite bind_run. destruct v as [text|t]; [|done].
  unfold write, with_file, encodable, gets. cbn.
  destruct (forallb _ _); [|done]. cbn.
  by rewrite lookup_insert_eq, insert_insert_eq.
Qed.

(** ** C9 *)

(** C9. When the scratch area holds nothing under [rss],
    [save_rss_file] raises [KeyError] (a lookup error) and the disk is as
    it was: the lookup fails before the file is opened, so [feed.xml] is
    neither created nor changed; the host object is unchanged as well. *)
Theorem save_rss_file_without_feed w :
  plugin_vars (host w) !! "rss" = None →
  save_rss_file w = (Raise (KeyError "rss"), w).
Proof. intros H. by rewrite save_rss_file_run, H. Qed.

Lemma save_rss_file_without_feed_witness :
  plugin_vars (host Sample.one) !! "rss" = None
  ∧ save_rss_file Sample.one = (Raise (KeyError "rss"), Sample.one).
Proof.
  split; [vm_compute; reflexivity|].
  apply (save_rss_file_without_feed Sample.one). vm_compute; reflexivity.
Defined.

(** ** C8 *)

(** C8. A successful [generate_rss] returns the host object it was given,
    and the only thing that differs afterwards is the entry [rss] of the
    scratch area: version, configuration, content store, output path,
    hooks, every other scratch entry (the article index among them) and
    the disk are what they were. *)
Theorem generate_rss_frame now w h' w' :
  generate_rss now w = (Ok h', w') →
  host w' = h'
  ∧ fs w' = fs w
  ∧ version h' = version (host w)
  ∧ config_file h' = config_file (host w)
  ∧ content h' = content (host w)
  ∧ dist_path h' = dist_path (host w)
  ∧ hooks h' = hooks (host w)
  ∧ (∃ feed, plugin_vars h' = <["rss" := PVText feed]> (plugin_vars (host w)))
  ∧ (∀ key, key ≠ "rss" → plugin_vars h' !! key = plugin_vars (host w) !! key)
  ∧ (∀ articles, index_of h' articles ↔ index_of (host w) articles).
Proof.
  intros (channel & articles & blocks & _ & -> & ->)%generate_rss_ok.
  repeat split; try done.
  - by eexists.
  - intros key Hkey. unfold store_feed. cbn. by rewrite lookup_insert_ne.
  - unfold index_of, store_feed. cbn. by rewrite lookup_insert_ne.
  - unfold index_of, store_feed. cbn. by rewrite lookup_insert_ne.
Qed.

Lemma generate_rss_frame_witness :
  generate_rss Sample.now Sample.one
  = (Ok Built.host_one, mk_world Built.host_one Sample.disk0)
  ∧ (host (mk_world Built.host_one Sample.disk0) = Built.host_one
     ∧ fs (mk_world Built.host_one Sample.disk0) = fs Sample.one
     ∧ version Built.host_one = version (host Sample.one)
     ∧ config_file Built.host_one = config_file (host Sample.one)
     ∧ content Built.host_one = content (host Sample.one)
     ∧ dist_path Built.host_one = dist_path (host Sample.one)
     ∧ hooks Built.host_one = hooks (host Sample.one)
     ∧ (∃ feed, plugin_vars Built.host_one
                = <["rss" := PVText feed]> (plugin_vars (host Sample.one)))
     ∧ (∀ key, key ≠ "rss" →
          plugin_vars Built.host_one !! key = plugin_vars (host Sample.one) !! key)
     ∧ (∀ articles, index_of Built.host_one articles
                    ↔ index_of (host Sample.one) articles)).
Proof.
  split; [vm_compute; reflexivity|].
  apply (generate_rss_frame Sample.now Sample.one). vm_compute; reflexivity.
Defined.

(** ** C6 *)

Lemma save_rss_file_ok w h' w' :
  save_rss_file w = (Ok h', w') ↔
  ∃ text, plugin_vars (host w) !! "rss" = Some (PVText text)
          ∧ can_write w = true
          ∧ encodable (fs w) text = true
          ∧ h' = host w
          ∧ w' = mk_world (host w) (with_file (fs w) (feed_path (host w)) text).
Proof.
  rewrite save_rss_file_run. split.
  - destruct (plugin_vars (host w) !! "rss") as [[text|t]|]; [| |done];
      destruct (can_write w); try done.
    destruct (encodable (fs w) text) eqn:E; [|done].
    intros [= <- <-]. by exists text.
  - intros (text & -> & -> & -> & -> & ->). done.
Qed.

(** The feed does not depend on what the scratch area held under [rss]. *)
Lemma feed_parts_stale h stale now channel articles blocks :
  feed_parts (store_feed h stale) now channel articles blocks
  ↔ feed_parts h now channel articles blocks.
Proof.
  unfold feed_parts, config_value, index_of, item_of, store_feed. cbn.
  by rewrite lookup_insert_ne.
Qed.

(** C6. [save_rss_file] puts exactly the string found under [rss] into
    [feed.xml] in the output directory, replacing what the file held, and
    [generate_rss] replaces the scratch value by the feed of the current
    configuration, content and index, whatever was stored before.  So after
    build, write, build, write (the host free to change its own state in
    between) the file holds the second feed and nothing else. *)
Theorem build_write_twice now1 now2 w0 h1 w1 h1' w2 w3 h2 w4 h2' w5 :
  generate_rss now1 w0 = (Ok h1, w1) →
  save_rss_file w1 = (Ok h1', w2) →
  fs w3 = fs w2 →
  generate_rss now2 w3 = (Ok h2, w4) →
  save_rss_file w4 = (Ok h2', w5) →
  ∃ feed1 channel articles blocks,
    built_feed h1 = Some feed1
    ∧ fs w2 = with_file (fs w0) (dist_path (host w0) +:+ "/feed.xml") feed1
    ∧ feed_parts (host w3) now2 channel articles blocks
    ∧ (∀ stale,
         feed_parts (store_feed (host w3) stale) now2 channel articles blocks)
    ∧ let feed2 := rss_open +:+ channel +:+ Str.join blocks +:+ rss_close in
      built_feed h2 = Some feed2
      ∧ fs w5 = with_file (fs w2) (dist_path (host w3) +:+ "/feed.xml") feed2
      ∧ files (fs w5) !! (dist_path (host w3) +:+ "/feed.xml") = Some feed2.
Proof.
  intros (c1 & a1 & b1 & _ & -> & ->)%generate_rss_ok.
  intros (t1 & Ht1 & _ & _ & -> & ->)%save_rss_file_ok Hfs.
  intros (c2 & a2 & b2 & Hp2 & -> & ->)%generate_rss_ok.
  intros (t2 & Ht2 & _ & _ & -> & ->)%save_rss_file_ok.
  cbn [host fs] in *.
  unfold store_feed in Ht1, Ht2. cbn in Ht1, Ht2.
  rewrite lookup_insert_eq in Ht1, Ht2.
  injection Ht1 as <-. injection Ht2 as <-.
  eexists _, c2, a2, b2.
  split; [apply built_feed_store|].
  split; [done|]. split; [done|].
  split; [intros stale; by apply feed_parts_stale|].
  cbv zeta. split; [apply built_feed_store|].
  rewrite Hfs. split; [done|].
  unfold with_file, feed_path. cbn. by rewrite lookup_insert_eq.
Qed.

Lemma build_write_twice_witness :
  generate_rss Sample.now Sample.one
  = (Ok Built.host_one, mk_world Built.host_one Sample.disk0)
  ∧ save_rss_file (mk_world Built.host_one Sample.disk0)
    = (Ok Built.host_one, Built.saved_one)
  ∧ fs Built.second_build = fs Built.saved_one
  ∧ generate_rss Sample.now Built.second_build
    = (Ok Built.host_three, mk_world Built.host_three (fs Built.saved_one))
  ∧ save_rss_file (mk_world Built.host_three (fs Built.saved_one))
    = (Ok Built.host_three, Built.saved_three)
  ∧ ∃ feed1 channel articles blocks,
      built_feed Built.host_one = Some feed1
      ∧ fs Built.saved_one
        = with_file (fs Sample.one)
            (dist_path (host Sample.one) +:+ "/feed.xml") feed1
      ∧ feed_parts (host Built.second_build) Sample.now channel articles blocks
      ∧ (∀ stale,
           feed_parts (store_feed (host Built.second_build) stale) Sample.now
             channel articles blocks)
      ∧ let feed2 := rss_open +:+ channel +:+ Str.join blocks +:+ rss_close in
        built_feed Built.host_three = Some feed2
        ∧ fs Built.saved_three
          = with_file (fs Built.saved_one)
              (dist_path (host Built.second_build) +:+ "/feed.xml") feed2
        ∧ files (fs Built.saved_three)
          !! (dist_path (host Built.second_build) +:+ "/feed.xml") = Some feed2.
Proof.
  assert (generate_rss Sample.now Sample.one
          = (Ok Built.host_one, mk_world Built.host_one Sample.disk0)) as H1
    by (vm_compute; reflexivity).
  assert (save_rss_file (mk_world Built.host_one Sample.disk0)
          = (Ok Built.host_one, Built.saved_one)) as H2
    by (vm_compute; reflexivity).
  assert (fs Built.second_build = fs Built.saved_one) as H3 by reflexivity.
  assert (generate_rss Sample.now Built.second_build
          = (Ok Built.host_three, mk_world Built.host_three (fs Built.saved_one)))
    as H4 by (vm_compute; reflexivity).
  assert (save_rss_file (mk_world Built.host_three (fs Built.saved_one))
          = (Ok Built.host_three, Built.saved_three)) as H5
    by (vm_compute; reflexivity).
  repeat (split; [assumption|]).
  exact (build_write_twice _ _ _ _ _ _ _ _ _ _ _ _ H1 H2 H3 H4 H5).
Defined.

(** ** C2: the worked example *)

Lemma config_value_lookup h section key value :
  config_value h section key value
  ↔ (config_file h !! section ≫= (.!! key)) = Some value.
Proof.
  unfold config_value. split.
  - intros (sec & -> & ?). done.
  - destruct (config_file h !! section) as [sec|]; [|done]. by exists sec.
Qed.

(** C2. With the sample configuration and the single entry titled
    [Hello] (excerpt [<p>World</p>], date [01.02.2024], permalink [hello]),
    whatever the clock, the host version, the identifier of the entry, the
    output path, the hooks and the disk: [generate_rss] succeeds and the
    feed is the root element, the channel header, exactly one item block
    and the closing text; that block has link and guid
    [https://example.com/hello], pubDate [Thu, 01 Feb 2024 00:00:00 +0000]
    and description [World]. *)
Theorem worked_example now ver article dist hks d :
  let h := mk_lste ver Sample.config_file {[ article := Sample.hello ]}
             {[ "articles" := PVTable {[ "articles" := [article] ]} ]}
             dist hks in
  let channel :=
    channel_block "My Site" "https://example.com" "Desc"
      (Datetime.strftime_rfc822 now) "en-us" ver "a@b.com" "A"
      "https://example.com/i.png" in
  let item :=
    item_block "Hello" "https://example.com" "hello"
      "Thu, 01 Feb 2024 00:00:00 +0000" "a@b.com" "A" "World" in
  let h' := store_feed h (rss_open +:+ channel +:+ item +:+ rss_close) in
  generate_rss now (mk_world h d) = (Ok h', mk_world h' d)
  ∧ Str.contains "<link>https://example.com/hello</link>" item
  ∧ Str.contains
      ("<guid isPermaLink=" +:+ Str.Q +:+ "true" +:+ Str.Q
       +:+ ">https://example.com/hello</guid>") item
  ∧ Str.contains "<pubDate>Thu, 01 Feb 2024 00:00:00 +0000</pubDate>" item
  ∧ Str.contains "<description>World</description>" item
  ∧ occurrences "<item>" item = 1%nat.
Proof.
  intros h channel item h'. split.
  - apply generate_rss_ok. exists channel, [article], [item].
    split; [|split; [|done]].
    + exists "My Site", "Desc", "https://example.com", "en-us", "a@b.com", "A",
        "https://example.com/i.png".
      repeat (split; [apply config_value_lookup; vm_compute; reflexivity|]).
      split; [done|]. split.
      * eexists. split; [done|]. done.
      * constructor; [|constructor].
        exists Sample.hello, "<p>World</p>",
          {[ "date" := "01.02.2024"; "permalink" := "hello" ]},
          "01.02.2024", (Datetime.mk_datetime 2024 2 1 0 0 0), "Hello", "hello".
        split; [apply lookup_singleton_eq|].
        repeat (split; [vm_compute; reflexivity|]).
        unfold item. by rewrite strftime_ex1, strip_ex1.
    + unfold h'. cbn [Str.join foldr]. by rewrite StrFacts.app_nil_r.
  - repeat split; try (apply containsb_spec); vm_compute; reflexivity.
Qed.

(** ** What the channel header contains *)

(** Walk to the segment [seg] of the template, then split it at the
    indentation [sp]. *)
Ltac find_at seg sp :=
  lazymatch goal with
  | |- Str.contains _ (seg +:+ _) =>
      eexists sp, _; rewrite ?StrFacts.app_assoc; reflexivity
  | |- Str.contains _ (_ +:+ _) =>
      apply StrFacts.contains_app_r; find_at seg sp
  end.

Section channel.
Context (title home_url description formatted_date language version
         contact author image : string).

Local Abbreviation header :=
  (channel_block title home_url description formatted_date language version
     contact author image).

Lemma channel_lastBuildDate :
  Str.contains ("<lastBuildDate>" +:+ formatted_date +:+ "</lastBuildDate>")
    header.
Proof. unfold channel_block. find_at "            <lastBuildDate>" "            ". Qed.

Lemma channel_generator :
  Str.contains ("<generator>LSTE " +:+ version +:+ "</generator>") header.
Proof. unfold channel_block. find_at "            <generator>LSTE " "            ". Qed.

Lemma channel_updatePeriod :
  Str.contains "<sy:updatePeriod>hourly</sy:updatePeriod>" header.
Proof. unfold channel_block. find_at "            <sy:updatePeriod>hourly</sy:updatePeriod>" "            ". Qed.

Lemma channel_updateFrequency :
  Str.contains "<sy:updateFrequency>1</sy:updateFrequency>" header.
Proof. unfold channel_block. find_at "            <sy:updateFrequency>1</sy:updateFrequency>" "            ". Qed.

Lemma channel_managingEditor :
  Str.contains
    ("<managingEditor>" +:+ contact +:+ " (" +:+ author +:+ ")</managingEditor>")
    header.
Proof. unfold channel_block. find_at "            <managingEditor>" "            ". Qed.

Lemma channel_webMaster :
  Str.contains
    ("<webMaster>" +:+ contact +:+ " (" +:+ author +:+ ")</webMaster>") header.
Proof. unfold channel_block. find_at "            <webMaster>" "            ". Qed.

Lemma channel_image :
  Str.contains (image_block image title home_url) header.
Proof.
  unfold channel_block, image_block.
  do 58 apply StrFacts.contains_app_r.
  exists "            ", "". rewrite StrFacts.app_nil_r, ?StrFacts.app_assoc.
  reflexivity.
Qed.

Lemma channel_self_link :
  Str.contains (self_link (home_url +:+ "/rss.xml")) header.
Proof. unfold channel_block, self_link. find_at "            <atom:link href=" "            ". Qed.

End channel.

(** ** The shape of a formatted date *)

Lemma match_classes_app p1 p2 s1 s2 :
  Re.match_classes p1 s1 = Some s1 →
  Re.match_classes p2 s2 = Some s2 →
  Re.match_classes (p1 ++ p2) (s1 +:+ s2) = Some (s1 +:+ s2).
Proof.
  revert s1. induction p1 as [|f p1 IH]; intros s1; cbn [Re.match_classes app].
  - by intros [= <-].
  - destruct s1 as [|c s1]; [done|]. rewrite StrFacts.app_cons.
    destruct (f c); [|done].
    destruct (Re.match_classes p1 s1) as [t|] eqn:E; [|done].
    intros [= ->] H2. by rewrite (IH s1).
Qed.

(** A property checked on every number of a range holds on the range. *)
Lemma forall_range (P : Z → bool) (lo n : Z) :
  forallb (λ k, P (lo + Z.of_nat k)) (seq 0 (Z.to_nat n)) = true →
  ∀ z, lo ≤ z < lo + n → P z = true.
Proof.
  intros H z Hz. rewrite forallb_forall in H.
  replace z with (lo + Z.of_nat (Z.to_nat (z - lo))) by lia.
  apply H, in_seq. lia.
Qed.

Lemma has_shape_spec shape s :
  has_shape shape s = true ↔ Re.match_classes shape s = Some s.
Proof. unfold has_shape. apply bool_decide_eq_true. Qed.

Lemma pad2_shape n :
  0 ≤ n ≤ 99 →
  Re.match_classes [Re.digit; Re.digit] (Datetime.pad2 n)
  = Some (Datetime.pad2 n).
Proof.
  intros Hn.
  apply has_shape_spec.
  apply (forall_range (λ n, has_shape [Re.digit; Re.digit] (Datetime.pad2 n))
           0 100); [vm_compute; reflexivity|lia].
Qed.

Lemma year_shape y :
  1000 ≤ y ≤ 9999 →
  Re.match_classes [Re.digit; Re.digit; Re.digit; Re.digit] (Datetime.decimal y)
  = Some (Datetime.decimal y).
Proof.
  intros Hy.
  apply has_shape_spec.
  apply (forall_range
           (λ y, has_shape [Re.digit; Re.digit; Re.digit; Re.digit]
                   (Datetime.decimal y)) 1000 9000);
    [vm_compute; reflexivity|lia].
Qed.

Lemma weekday_shape dt :
  Re.match_classes [alpha; alpha; alpha]
    (nth (Z.to_nat (Datetime.weekday dt)) Datetime.a_weekday "")
  = Some (nth (Z.to_nat (Datetime.weekday dt)) Datetime.a_weekday "").
Proof.
  unfold Datetime.weekday.
  set (x := Datetime._ymd2ord _ _ _ + 6).
  assert (Z.to_nat (x mod 7) < 7)%nat as H
    by (pose proof (Z.mod_pos_bound x 7); lia).
  destruct (Z.to_nat (x mod 7)) as [|[|[|[|[|[|[|k]]]]]]];
    [vm_compute; reflexivity..|lia].
Qed.

Lemma month_shape m :
  1 ≤ m ≤ 12 →
  Re.match_classes [alpha; alpha; alpha] (nth (Z.to_nat m) Datetime.a_month "")
  = Some (nth (Z.to_nat m) Datetime.a_month "").
Proof.
  intros Hm. assert (1 ≤ Z.to_nat m ≤ 12)%nat as H by lia.
  destruct (Z.to_nat m) as [|[|[|[|[|[|[|[|[|[|[|[|[|k]]]]]]]]]]]]];
    [lia|vm_compute; reflexivity..|lia].
Qed.

Lemma days_in_month_le y m : Datetime._days_in_month y m ≤ 31.
Proof.
  unfold Datetime._days_in_month.
  destruct (_ && _); [lia|].
  destruct (Z.to_nat m) as [|[|[|[|[|[|[|[|[|[|[|[|[|[|k]]]]]]]]]]]]]];
    cbn; lia.
Qed.

(** For a date and time of day in range, from the year 1000 on, the
    formatted text is [Dow, DD Mon YYYY HH:MM:SS +0000]. *)
Lemma strftime_shape dt :
  Datetime.valid dt = true → 1000 ≤ Datetime.year dt →
  has_shape rfc822_utc (Datetime.strftime_rfc822 dt) = true.
Proof.
  unfold Datetime.valid, Datetime._check_date_fields,
    Datetime._check_time_fields, Datetime.MINYEAR, Datetime.MAXYEAR.
  rewrite !andb_true_iff, !Z.leb_le.
  intros [[[[[[? ?] ?] ?] ?] Hd] [[[[[? ?] ?] ?] ?] ?]] Hy.
  pose proof (days_in_month_le (Datetime.year dt) (Datetime.month dt)).
  apply has_shape_spec. unfold Datetime.strftime_rfc822.
  change rfc822_utc with
    ([alpha; alpha; alpha] ++ [Re.one ","; Re.one " "]
     ++ [Re.digit; Re.digit] ++ [Re.one " "]
     ++ [alpha; alpha; alpha] ++ [Re.one " "]
     ++ [Re.digit; Re.digit; Re.digit; Re.digit] ++ [Re.one " "]
     ++ [Re.digit; Re.digit] ++ [Re.one ":"]
     ++ [Re.digit; Re.digit] ++ [Re.one ":"]
     ++ [Re.digit; Re.digit]
     ++ [Re.one " "; Re.one "+"; Re.one "0"; Re.one "0"; Re.one "0"; Re.one "0"]).
  repeat (apply match_classes_app;
          [first [ apply weekday_shape | apply pad2_shape; lia
                 | apply month_shape; lia | apply year_shape; lia
                 | reflexivity ]|]).
  reflexivity.
Qed.

(** ** C5: the channel header *)

Lemma feed_contains_channel x channel rest :
  Str.contains x channel → Str.contains x (rss_open +:+ channel +:+ rest).
Proof. intros H. by apply StrFacts.contains_app_r, StrFacts.contains_app_l. Qed.

Lemma ends_with_refl s : Str.ends_with s s.
Proof. by exists "". Qed.

Lemma ends_with_app_r suffix s t :
  Str.ends_with suffix t → Str.ends_with suffix (s +:+ t).
Proof. intros [pre ->]. exists (s +:+ pre). by rewrite StrFacts.app_assoc. Qed.

Lemma strftime_utc_offset dt :
  Str.ends_with " +0000" (Datetime.strftime_rfc822 dt).
Proof.
  unfold Datetime.strftime_rfc822.
  do 13 apply ends_with_app_r. apply ends_with_refl.
Qed.

(** C5. In every feed [generate_rss] produces, the channel header holds:
    [lastBuildDate] with the clock reading formatted by
    [%a, %d %b %Y %H:%M:%S +0000], a text that always ends in the literal
    [ +0000] and, for a reading in range from the year 1000 on, has the
    shape [Dow, DD Mon YYYY HH:MM:SS +0000]; the generator [LSTE] followed
    by the host's version; the cadence literals [hourly] and [1];
    [managingEditor] and [webMaster] both [contact (author)]; and the
    image element with the configured url, the site title, the home link
    and width and height 32. *)
Theorem channel_header_fields now w h' w' :
  generate_rss now w = (Ok h', w') →
  ∃ feed title home_url contact author image,
    built_feed h' = Some feed
    ∧ config_value (host w) "lste" "title" title
    ∧ config_value (host w) "rss" "home_url" home_url
    ∧ config_value (host w) "rss" "contact" contact
    ∧ config_value (host w) "rss" "author" author
    ∧ config_value (host w) "rss" "image" image
    ∧ Str.contains
        ("<lastBuildDate>" +:+ Datetime.strftime_rfc822 now
         +:+ "</lastBuildDate>") feed
    ∧ Str.ends_with " +0000" (Datetime.strftime_rfc822 now)
    ∧ (Datetime.valid now = true → 1000 ≤ Datetime.year now →
       has_shape rfc822_utc (Datetime.strftime_rfc822 now) = true)
    ∧ Str.contains
        ("<generator>LSTE " +:+ version (host w) +:+ "</generator>") feed
    ∧ Str.contains "<sy:updatePeriod>hourly</sy:updatePeriod>" feed
    ∧ Str.contains "<sy:updateFrequency>1</sy:updateFrequency>" feed
    ∧ Str.contains
        ("<managingEditor>" +:+ contact +:+ " (" +:+ author
         +:+ ")</managingEditor>") feed
    ∧ Str.contains
        ("<webMaster>" +:+ contact +:+ " (" +:+ author +:+ ")</webMaster>")
        feed
    ∧ Str.contains (image_block image title home_url) feed.
Proof.
  intros (channel & articles & blocks & Hparts & -> & ->)%generate_rss_ok.
  destruct Hparts as (title & description & home_url & language & contact
                      & author & image & ? & ? & ? & ? & ? & ? & ? & -> & _).
  eexists _, title, home_url, contact, author, image.
  split; [apply built_feed_store|].
  do 5 (split; [assumption|]).
  split; [apply feed_contains_channel, channel_lastBuildDate|].
  split; [apply strftime_utc_offset|].
  split; [apply strftime_shape|].
  split; [apply feed_contains_channel, channel_generator|].
  split; [apply feed_contains_channel, channel_updatePeriod|].
  split; [apply feed_contains_channel, channel_updateFrequency|].
  split; [apply feed_contains_channel, channel_managingEditor|].
  split; [apply feed_contains_channel, channel_webMaster|].
  apply feed_contains_channel, channel_image.
Qed.

Lemma channel_header_fields_witness :
  generate_rss Sample.now Sample.one
  = (Ok Built.host_one, mk_world Built.host_one Sample.disk0)
  ∧ ∃ feed title home_url contact author image,
      built_feed Built.host_one = Some feed
      ∧ config_value (host Sample.one) "lste" "title" title
      ∧ config_value (host Sample.one) "rss" "home_url" home_url
      ∧ config_value (host Sample.one) "rss" "contact" contact
      ∧ config_value (host Sample.one) "rss" "author" author
      ∧ config_value (host Sample.one) "rss" "image" image
      ∧ Str.contains
          ("<lastBuildDate>" +:+ Datetime.strftime_rfc822 Sample.now
           +:+ "</lastBuildDate>") feed
      ∧ Str.ends_with " +0000" (Datetime.strftime_rfc822 Sample.now)
      ∧ (Datetime.valid Sample.now = true → 1000 ≤ Datetime.year Sample.now →
         has_shape rfc822_utc (Datetime.strftime_rfc822 Sample.now) = true)
      ∧ Str.contains
          ("<generator>LSTE " +:+ version (host Sample.one) +:+ "</generator>")
          feed
      ∧ Str.contains "<sy:updatePeriod>hourly</sy:updatePeriod>" feed
      ∧ Str.contains "<sy:updateFrequency>1</sy:updateFrequency>" feed
      ∧ Str.contains
          ("<managingEditor>" +:+ contact +:+ " (" +:+ author
           +:+ ")</managingEditor>") feed
      ∧ Str.contains
          ("<webMaster>" +:+ contact +:+ " (" +:+ author +:+ ")</webMaster>")
          feed
      ∧ Str.contains (image_block image title home_url) feed.
Proof.
  assert (generate_rss Sample.now Sample.one
          = (Ok Built.host_one, mk_world Built.host_one Sample.disk0)) as H
    by (vm_compute; reflexivity).
  split; [exact H|].
  exact (channel_header_fields _ _ _ _ H).
Defined.

(** ** C4: the self link *)

(** In every feed the self link is the home URL followed by [/rss.xml]. *)
Lemma feed_self_link now w h' w' :
  generate_rss now w = (Ok h', w') →
  ∃ feed home_url,
    built_feed h' = Some feed
    ∧ config_value (host w) "rss" "home_url" home_url
    ∧ Str.contains (self_link (home_url +:+ "/rss.xml")) feed.
Proof.
  intros (channel & articles & blocks & Hparts & -> & ->)%generate_rss_ok.
  destruct Hparts as (title & description & home_url & language & contact
                      & author & image & ? & ? & ? & ? & ? & ? & ? & -> & _).
  eexists _, home_url. split; [apply built_feed_store|]. split; [done|].
  apply feed_contains_channel, channel_self_link.
Qed.

(** C4, on the sample site.  The build succeeds and the writer stores the
    feed in [dist/feed.xml]; the feed has one self link, it names
    [https://example.com/rss.xml], and [feed.xml] occurs nowhere in the
    feed: the self link does not refer to the file that is written. *)
Theorem self_link_is_not_the_written_file :
  generate_rss Sample.now Sample.one
  = (Ok Built.host_one, mk_world Built.host_one Sample.disk0)
  ∧ save_rss_file (mk_world Built.host_one Sample.disk0)
    = (Ok Built.host_one, Built.saved_one)
  ∧ files (fs Built.saved_one) !! "dist/feed.xml" = Some Built.feed_one
  ∧ dom (files (fs Built.saved_one)) = {[ "dist/feed.xml" ]}
  ∧ containsb (self_link "https://example.com/rss.xml") Built.feed_one = true
  ∧ occurrences ("rel=" +:+ Str.Q +:+ "self" +:+ Str.Q) Built.feed_one = 1%nat
  ∧ containsb (self_link "https://example.com/feed.xml") Built.feed_one = false
  ∧ containsb "feed.xml" Built.feed_one = false.
Proof. repeat split; vm_compute; reflexivity. Qed.

(** ** C10: tags that span lines *)

Lemma index_of_inj h a1 a2 : index_of h a1 → index_of h a2 → a1 = a2.
Proof. intros (t1 & H1 & H1') (t2 & H2 & H2'). congruence. Qed.



Lemma feed_contains_item x block blocks channel :
  block ∈ blocks → Str.contains x block →
  Str.contains x (rss_open +:+ channel +:+ Str.join blocks +:+ rss_close).
Proof.
  intros Hin Hx.
  do 2 apply StrFacts.contains_app_r. apply StrFacts.contains_app_l.
  eapply StrFacts.contains_trans; [exact Hx|by apply contains_join].
Qed.





(** ** The matcher on the date pattern *)

Lemma match_classes_inv cs s cap :
  Re.match_classes cs s = Some cap →
  s = cap +:+ Re.drop (String.length cap) s
  ∧ Re.match_classes cs cap = Some cap.
Proof.
  revert s cap. induction cs as [|f cs IH]; intros s cap; cbn [Re.match_classes].
  - intros [= <-]. by destruct s.
  - destruct s as [|c s]; [done|]. destruct (f c) eqn:Hf; [|done].
    destruct (Re.match_classes cs s) as [t|] eqn:E; [|done].
    intros [= <-]. destruct (IH s t E) as [Hs Ht].
    cbn [String.length Re.drop Re.match_classes].
    rewrite StrFacts.app_cons, <-Hs, Hf, Ht. done.
Qed.

Lemma group_inv alts p s groups n :
  Re.re_match (Re.Group alts :: p) s = Some (groups, n) →
  ∃ alt cap groups' n',
    alt ∈ alts
    ∧ Re.match_classes alt s = Some cap
    ∧ Re.re_match p (Re.drop (String.length cap) s) = Some (groups', n')
    ∧ groups = cap :: groups'
    ∧ n = (String.length cap + n')%nat.
Proof.
  induction alts as [|alt more IH]; [done|].
  change (Re.re_match (Re.Group (alt :: more) :: p) s)
    with (match Re.match_classes alt s with
          | Some cap =>
              match Re.re_match p (Re.drop (String.length cap) s) with
              | Some (caps, n) => Some (cap :: caps, (String.length cap + n)%nat)
              | None => Re.re_match (Re.Group more :: p) s
              end
          | None => Re.re_match (Re.Group more :: p) s
          end).
  destruct (Re.match_classes alt s) as [cap|] eqn:Hcap.
  - destruct (Re.re_match p _) as [[caps k]|] eqn:Hp.
    + intros [= <- <-]. exists alt, cap, caps, k.
      split; [left|done].
    + intros (a & c & g & k & ? & ?)%IH. exists a, c, g, k.
      split; [by right|done].
  - intros (a & c & g & k & ? & ?)%IH. exists a, c, g, k.
    split; [by right|done].
Qed.

Lemma lit_inv c p s groups n :
  Re.re_match (Re.Lit c :: p) s = Some (groups, n) →
  ∃ s' n', s = String c s' ∧ Re.re_match p s' = Some (groups, n') ∧ n = S n'.
Proof.
  cbn [Re.re_match]. destruct s as [|a s]; [done|].
  destruct (Ascii.eqb_spec a c) as [->|]; [|done].
  destruct (Re.re_match p s) as [[g k]|] eqn:E; [|done].
  cbn. intros [= <- <-]. by exists s, k.
Qed.

(** A match of the date pattern splits the matched text at its dots. *)
Lemma dmY_match_inv s groups n :
  Re.re_match Datetime.dmY_pattern s = Some (groups, n) →
  ∃ ad am aY d m Y rest,
    ad ∈ Datetime.d_alts ∧ am ∈ Datetime.m_alts ∧ aY ∈ Datetime.Y_alts
    ∧ Re.match_classes ad d = Some d
    ∧ Re.match_classes am m = Some m
    ∧ Re.match_classes aY Y = Some Y
    ∧ s = d +:+ String "." (m +:+ String "." (Y +:+ rest))
    ∧ groups = [d; m; Y]
    ∧ (n + String.length rest)%nat = String.length s.
Proof.
  unfold Datetime.dmY_pattern.
  intros (ad & d & g1 & n1 & Had & Hd & H & -> & ->)%group_inv.
  apply match_classes_inv in Hd as [Hs Hd].
  apply lit_inv in H as (s1 & n2 & Hs1 & H & ->).
  apply group_inv in H as (am & m & g2 & n3 & Ham & Hm & H & -> & ->).
  apply match_classes_inv in Hm as [Hs2 Hm].
  apply lit_inv in H as (s3 & n4 & Hs3 & H & ->).
  apply group_inv in H as (aY & Y & g3 & n5 & HaY & HY & H & -> & ->).
  apply match_classes_inv in HY as [Hs4 HY].
  cbn [Re.re_match] in H. injection H as <- <-.
  exists ad, am, aY, d, m, Y, (Re.drop (String.length Y) s3).
  assert (s = d +:+ String "." (m +:+ String "." (Y +:+ Re.drop (String.length Y) s3)))
    as Hsplit by (by rewrite <-Hs4, <-Hs3, <-Hs2, <-Hs1).
  repeat (split; [done|]). rewrite Hsplit.
  repeat (rewrite ?StrFacts.length_app; cbn [String.length]). lia.
Qed.

(** ** [strptime_dmY] against the notation read directly *)

Lemma range_digit lo hi c :
  Re.range lo hi c = true → Re.digit lo = true → Re.digit hi = true →
  Re.digit c = true.
Proof.
  unfold Re.digit, Re.range. rewrite !andb_true_iff, !N.leb_le. lia.
Qed.

Lemma digit_not_blank c : Re.digit c = true → Ascii.eqb c " " = false.
Proof.
  intros H. destruct (Ascii.eqb_spec c " ") as [->|]; [|done].
  vm_compute in H. discriminate.
Qed.

Lemma span_digits_dot t r :
  DateText.is_digits t = true →
  DateText.span_digits (t +:+ String "." r) = (t, String "." r).
Proof.
  induction t as [|c t IH]; [done|].
  cbn [DateText.is_digits]. intros [Hc Ht]%andb_prop.
  rewrite StrFacts.app_cons. cbn [DateText.span_digits].
  by rewrite Hc, IH.
Qed.

Lemma span_digits_end t :
  DateText.is_digits t = true → DateText.span_digits t = (t, "").
Proof.
  induction t as [|c t IH]; [done|].
  cbn [DateText.is_digits]. intros [Hc Ht]%andb_prop.
  cbn [DateText.span_digits]. by rewrite Hc, IH.
Qed.

Lemma py_int_digits t :
  DateText.is_digits t = true → t ≠ "" →
  Datetime.py_int t = Datetime.int_digits 0 t.
Proof.
  destruct t as [|c t]; [done|]. cbn [DateText.is_digits].
  intros [Hc _]%andb_prop _. unfold Datetime.py_int. cbn [Datetime.lstrip].
  by rewrite (digit_not_blank c Hc).
Qed.

Lemma py_int_blank t :
  DateText.is_digits t = true → t ≠ "" →
  Datetime.py_int (String " " t) = Datetime.int_digits 0 t.
Proof.
  intros Ht Hne. rewrite <-(py_int_digits t Ht Hne).
  unfold Datetime.py_int. cbn [Datetime.lstrip]. done.
Qed.

Lemma num_text_inv lo hi t :
  num_text lo hi t = true →
  DateText.is_digits t = true
  ∧ DateText.between lo hi (String.length t) = true.
Proof. unfold num_text. by intros ?%andb_prop. Qed.

Lemma num_text_nonempty hi t : num_text 1 hi t = true → t ≠ "".
Proof. by destruct t. Qed.

(** The direct reading on a text already split at its dots. *)
Lemma spec_dmY_of_parts d m Y :
  day_text d = true → num_text 1 2 m = true → num_text 4 4 Y = true →
  DateText.spec_dmY (d +:+ String "." (m +:+ String "." Y)) =
  match Datetime.py_int d, Datetime.py_int m, Datetime.py_int Y with
  | Some day, Some month, Some year =>
      if Datetime._check_date_fields year month day
      then Some (Datetime.mk_datetime year month day 0 0 0)
      else None
  | _, _, _ => None
  end.
Proof.
  intros Hd Hm HY.
  pose proof (num_text_nonempty _ _ Hm) as Hm0.
  assert (Y ≠ "") as HY0 by (by destruct Y).
  apply num_text_inv in Hm as [Hm1 Hm2], HY as [HY1 HY2].
  rewrite (py_int_digits m Hm1 Hm0), (py_int_digits Y HY1 HY0).
  assert (∃ d', DateText.skip_blank (d +:+ String "." (m +:+ String "." Y))
                = d' +:+ String "." (m +:+ String "." Y)
                ∧ DateText.is_digits d' = true
                ∧ DateText.between 1
                    (if DateText.starts_blank
                          (d +:+ String "." (m +:+ String "." Y))
                     then 1 else 2) (String.length d') = true
                ∧ Datetime.py_int d = Datetime.int_digits 0 d')
    as (d' & Hskip & Hd1 & Hd2 & Hint).
  { unfold day_text in Hd. apply orb_prop in Hd as [Hd|Hd].
    - pose proof (num_text_nonempty _ _ Hd) as Hd0.
      apply num_text_inv in Hd as [Hd1 Hd2].
      exists d. rewrite py_int_digits by done.
      destruct d as [|c d]; [done|]. pose proof Hd1 as Hd1'.
      cbn [DateText.is_digits] in Hd1'.
      apply andb_prop in Hd1' as [Hc _].
      rewrite StrFacts.app_cons.
      cbn [DateText.skip_blank DateText.starts_blank].
      by rewrite (digit_not_blank c Hc).
    - destruct d as [|b d]; [done|].
      apply andb_prop in Hd as [->%Ascii.eqb_eq Hd].
      pose proof (num_text_nonempty _ _ Hd) as Hd0.
      apply num_text_inv in Hd as [Hd1 Hd2].
      exists d. by rewrite py_int_blank. }
  unfold DateText.spec_dmY. rewrite Hskip, span_digits_dot by done.
  rewrite span_digits_dot by done. rewrite span_digits_end by done.
  rewrite Hd2, Hm2, HY2, Hint. done.
Qed.

Ltac class_facts :=
  repeat match goal with
    | H : Re.one _ _ = true |- _ =>
        unfold Re.one in H; apply Ascii.eqb_eq in H; subst
    | H : Re.range _ _ _ = true |- _ =>
        apply range_digit in H; [|reflexivity..]
    end.

Ltac alt_cases H :=
  repeat (apply elem_of_cons in H as [->|H]); [..|by apply elem_of_nil in H].

Ltac class_split H s :=
  destruct s as [|? [|? [|? [|? [|? s]]]]];
  cbn [Re.match_classes] in H; repeat case_match; simplify_eq/=.

Lemma d_alts_day_text alt d :
  alt ∈ Datetime.d_alts → Re.match_classes alt d = Some d →
  day_text d = true.
Proof.
  unfold Datetime.d_alts. intros Halt H. alt_cases Halt;
    class_split H d; class_facts;
    unfold day_text, num_text; cbn [DateText.is_digits String.length];
    repeat match goal with H : Re.digit _ = true |- _ => rewrite H end;
    reflexivity.
Qed.

Lemma m_alts_num_text alt m :
  alt ∈ Datetime.m_alts → Re.match_classes alt m = Some m →
  num_text 1 2 m = true.
Proof.
  unfold Datetime.m_alts. intros Halt H. alt_cases Halt;
    class_split H m; class_facts;
    unfold num_text; cbn [DateText.is_digits String.length];
    repeat match goal with H : Re.digit _ = true |- _ => rewrite H end;
    reflexivity.
Qed.

Lemma Y_alts_num_text alt Y :
  alt ∈ Datetime.Y_alts → Re.match_classes alt Y = Some Y →
  num_text 4 4 Y = true.
Proof.
  unfold Datetime.Y_alts. intros Halt H. alt_cases Halt;
    class_split H Y; class_facts;
    unfold num_text; cbn [DateText.is_digits String.length];
    repeat match goal with H : Re.digit _ = true |- _ => rewrite H end;
    reflexivity.
Qed.

(** Whatever [strptime_dmY] accepts is a text in the notation
    [day.month.year], and the date returned is the one the text names, at
    midnight. *)
Lemma strptime_sound s dt :
  Datetime.strptime_dmY s = Ok dt → DateText.spec_dmY s = Some dt.
Proof.
  unfold Datetime.strptime_dmY.
  destruct (Re.re_match Datetime.dmY_pattern s) as [[groups n]|] eqn:Hmatch;
    [|done].
  destruct (String.length s =? n)%nat eqn:Hlen; [|done]. cbn [negb].
  apply Nat.eqb_eq in Hlen.
  apply dmY_match_inv in Hmatch
    as (ad & am & aY & d & m & Y & rest & Had & Ham & HaY & Hd & Hm & HY
        & -> & -> & Hn).
  assert (rest = "") as -> by (destruct rest; [done|simpl in Hn; lia]).
  rewrite StrFacts.app_nil_r.
  rewrite (spec_dmY_of_parts d m Y)
    by eauto using d_alts_day_text, m_alts_num_text, Y_alts_num_text.
  destruct (Datetime.py_int d), (Datetime.py_int m), (Datetime.py_int Y);
    try done.
  destruct (Datetime._check_date_fields _ _ _); [|done]. by intros [= <-].
Qed.

(** ** Every text in the notation is accepted *)

Lemma digit_cases c :
  Re.digit c = true →
  c = "0"%char ∨ c = "1"%char ∨ c = "2"%char ∨ c = "3"%char ∨ c = "4"%char
  ∨ c = "5"%char ∨ c = "6"%char ∨ c = "7"%char ∨ c = "8"%char ∨ c = "9"%char.
Proof.
  destruct c as [[] [] [] [] [] [] [] []]; intros H; vm_compute in H;
    try discriminate H; clear H;
    repeat match goal with
      | |- _ ∨ _ => first [left; reflexivity | right]
      end; reflexivity.
Qed.

Lemma group_step alt more p s :
  Re.re_match (Re.Group (alt :: more) :: p) s =
  match Re.match_classes alt s with
  | Some cap =>
      match Re.re_match p (Re.drop (String.length cap) s) with
      | Some (caps, n) => Some (cap :: caps, (String.length cap + n)%nat)
      | None => Re.re_match (Re.Group more :: p) s
      end
  | None => Re.re_match (Re.Group more :: p) s
  end.
Proof. reflexivity. Qed.

Lemma lit_step c p s :
  Re.re_match (Re.Lit c :: p) (String c s) = prod_map id S <$> Re.re_match p s.
Proof. cbn [Re.re_match]. by rewrite Ascii.eqb_refl. Qed.

Lemma span_digits_inv s d r :
  DateText.span_digits s = (d, r) →
  s = d +:+ r ∧ DateText.is_digits d = true.
Proof.
  revert d r. induction s as [|c s IH]; intros d r; cbn [DateText.span_digits].
  - by intros [= <- <-].
  - destruct (Re.digit c) eqn:Hc; [|by intros [= <- <-]].
    destruct (DateText.span_digits s) as [d' r'] eqn:E.
    intros [= <- <-]. destruct (IH d' r' eq_refl) as [-> Hd].
    cbn [DateText.is_digits]. by rewrite Hc, Hd.
Qed.

Ltac enum_digits :=
  repeat match goal with
    | H : Re.digit ?c = true |- _ =>
        apply digit_cases in H;
        destruct H as [->|[->|[->|[->|[->|[->|[->|[->|[->| ->]]]]]]]]]
    end.

(** Evaluate the class tests on given characters. *)
Ltac eval_classes :=
  repeat match goal with
    | |- context [Re.one ?a ?b] =>
        let v := eval vm_compute in (Re.one a b) in
        change (Re.one a b) with v
    | |- context [Re.range ?a ?b ?c] =>
        let v := eval vm_compute in (Re.range a b c) in
        change (Re.range a b c) with v
    | |- context [Re.digit ?c] =>
        let v := eval vm_compute in (Re.digit c) in
        change (Re.digit c) with v
    end.

Ltac run_group Hp :=
  repeat (rewrite group_step; cbn [Re.match_classes]; eval_classes;
          cbn -[Re.re_match]; rewrite ?Hp; cbn -[Re.re_match]);
  reflexivity.

(** The group of the day, on a day text followed by a dot. *)
Lemma d_group_complete d day p r g n :
  DateText.is_digits d = true →
  DateText.between 1 2 (String.length d) = true →
  Datetime.int_digits 0 d = Some day → 1 ≤ day ≤ 31 →
  Re.re_match p (String "." r) = Some (g, n) →
  Re.re_match (Re.Group Datetime.d_alts :: p) (d +:+ String "." r)
  = Some (d :: g, (String.length d + n)%nat).
Proof.
  intros Hd Hlen Hint Hday Hp.
  destruct d as [|c1 [|c2 [|c3 d]]]; cbn in Hlen; try done;
    cbn [DateText.is_digits] in Hd;
    repeat (apply andb_prop in Hd as [? Hd]); enum_digits;
    vm_compute in Hint; injection Hint as <-;
    first [ exfalso; lia
          | unfold Datetime.d_alts;
            rewrite !StrFacts.app_cons, StrFacts.app_nil_l; run_group Hp ].
Qed.

Lemma d_group_blank c day p r g n :
  Re.digit c = true →
  Datetime.int_digits 0 (String c "") = Some day → 1 ≤ day →
  Re.re_match p (String "." r) = Some (g, n) →
  Re.re_match (Re.Group Datetime.d_alts :: p)
    (String " " (String c (String "." r)))
  = Some (String " " (String c "") :: g, (2 + n)%nat).
Proof.
  intros Hc Hint Hday Hp. enum_digits;
    vm_compute in Hint; injection Hint as <-;
    first [ exfalso; lia | unfold Datetime.d_alts; run_group Hp ].
Qed.

(** The group of the month, on a month text followed by a dot. *)
Lemma m_group_complete m month p r g n :
  DateText.is_digits m = true →
  DateText.between 1 2 (String.length m) = true →
  Datetime.int_digits 0 m = Some month → 1 ≤ month ≤ 12 →
  Re.re_match p (String "." r) = Some (g, n) →
  Re.re_match (Re.Group Datetime.m_alts :: p) (m +:+ String "." r)
  = Some (m :: g, (String.length m + n)%nat).
Proof.
  intros Hm Hlen Hint Hmonth Hp.
  destruct m as [|c1 [|c2 [|c3 m]]]; cbn in Hlen; try done;
    cbn [DateText.is_digits] in Hm;
    repeat (apply andb_prop in Hm as [? Hm]); enum_digits;
    vm_compute in Hint; injection Hint as <-;
    first [ exfalso; lia
          | unfold Datetime.m_alts;
            rewrite !StrFacts.app_cons, StrFacts.app_nil_l; run_group Hp ].
Qed.

(** The group of the year, at the end of the text. *)
Lemma Y_group_complete Y :
  DateText.is_digits Y = true →
  DateText.between 4 4 (String.length Y) = true →
  Re.re_match [Re.Group Datetime.Y_alts] Y = Some ([Y], String.length Y).
Proof.
  intros HY Hlen.
  destruct Y as [|c1 [|c2 [|c3 [|c4 [|c5 Y]]]]]; cbn in Hlen; try done.
  cbn [DateText.is_digits] in HY.
  repeat (apply andb_prop in HY as [? HY]).
  unfold Datetime.Y_alts. rewrite group_step. cbn [Re.match_classes].
  repeat match goal with H : Re.digit _ = true |- _ => rewrite H; clear H end.
  reflexivity.
Qed.

Lemma check_date_fields_inv year month day :
  Datetime._check_date_fields year month day = true →
  1 ≤ month ≤ 12 ∧ 1 ≤ day ≤ 31.
Proof.
  unfold Datetime._check_date_fields.
  rewrite !andb_true_iff, !Z.leb_le.
  pose proof (days_in_month_le year month). lia.
Qed.

Lemma between_nonempty hi t :
  DateText.between 1 hi (String.length t) = true → t ≠ "".
Proof. by destruct t. Qed.

(** The matcher on a text in the notation. *)
Lemma dmY_match_complete d m Y day month :
  DateText.is_digits d = true →
  DateText.between 1 2 (String.length d) = true →
  Datetime.int_digits 0 d = Some day → 1 ≤ day ≤ 31 →
  DateText.is_digits m = true →
  DateText.between 1 2 (String.length m) = true →
  Datetime.int_digits 0 m = Some month → 1 ≤ month ≤ 12 →
  DateText.is_digits Y = true →
  DateText.between 4 4 (String.length Y) = true →
  let tail := String "." (m +:+ String "." Y) in
  Re.re_match [Re.Lit "."; Re.Group Datetime.m_alts; Re.Lit ".";
               Re.Group Datetime.Y_alts] tail
  = Some ([m; Y], String.length tail)
  ∧ Re.re_match Datetime.dmY_pattern (d +:+ tail)
    = Some ([d; m; Y], String.length (d +:+ tail)).
Proof.
  intros Hd Hdl Hdi Hday Hm Hml Hmi Hmonth HY HYl tail.
  assert (Re.re_match [Re.Lit "."; Re.Group Datetime.Y_alts] (String "." Y)
          = Some ([Y], S (String.length Y))) as H1.
  { by rewrite lit_step, Y_group_complete. }
  assert (Re.re_match [Re.Lit "."; Re.Group Datetime.m_alts; Re.Lit ".";
                       Re.Group Datetime.Y_alts] tail
          = Some ([m; Y], String.length tail)) as H2.
  { unfold tail. rewrite lit_step.
    rewrite (m_group_complete m month _ Y [Y] (S (String.length Y))) by done.
    cbn [String.length]. rewrite StrFacts.length_app. done. }
  split; [done|]. unfold Datetime.dmY_pattern. unfold tail in *.
  rewrite (d_group_complete d day _ _ [m; Y] _ Hd Hdl Hdi Hday H2).
  by rewrite StrFacts.length_app.
Qed.

(** Whatever is a calendar date in the notation is accepted, with that
    date. *)
Lemma strptime_complete s dt :
  DateText.spec_dmY s = Some dt → Datetime.strptime_dmY s = Ok dt.
Proof.
  unfold DateText.spec_dmY.
  destruct (DateText.span_digits (DateText.skip_blank s)) as [d r] eqn:E1.
  destruct r as [|c r]; [done|].
  destruct (DateText.span_digits r) as [m r'] eqn:E2.
  destruct r' as [|c' r'']; [done|].
  destruct (DateText.span_digits r'') as [Y rest] eqn:E3.
  destruct (_ && _) eqn:Hcond; [|done].
  repeat (apply andb_prop in Hcond as [Hcond ?]).
  destruct (Datetime.int_digits 0 d) as [day|] eqn:Hdi; [|done].
  destruct (Datetime.int_digits 0 m) as [month|] eqn:Hmi; [|done].
  destruct (Datetime.int_digits 0 Y) as [year|] eqn:HYi; [|done].
  destruct (Datetime._check_date_fields year month day) eqn:Hcheck; [|done].
  intros [= <-].
  apply Ascii.eqb_eq in Hcond as ->.
  match goal with H : Ascii.eqb c' _ = true |- _ => apply Ascii.eqb_eq in H as -> end.
  match goal with H : bool_decide (rest = "") = true |- _ =>
    apply bool_decide_eq_true in H as -> end.
  apply span_digits_inv in E1 as [Hs Hd], E2 as [-> Hm], E3 as [-> HY].
  rewrite StrFacts.app_nil_r in *.
  destruct (check_date_fields_inv _ _ _ Hcheck) as [Hmonth Hday].
  pose proof (between_nonempty _ _ ltac:(eassumption) : m ≠ "") as Hm0.
  assert (Y ≠ "") as HY0 by (by destruct Y).
  assert (DateText.between 1 2 (String.length d) = true ∧ d ≠ "") as [Hdl Hd0].
  { match goal with H : DateText.between 1 _ (String.length d) = true |- _ =>
      destruct (DateText.starts_blank s); destruct d as [|? [|? [|? ?]]];
      done end. }
  destruct (dmY_match_complete d m Y day month) as [Htail Hfull]; try done.
  unfold Datetime.strptime_dmY.
  destruct (DateText.starts_blank s) eqn:Hblank.
  - destruct s as [|b s]; [done|]. cbn [DateText.starts_blank] in Hblank.
    apply Ascii.eqb_eq in Hblank as ->.
    cbn [DateText.skip_blank] in Hs. rewrite Ascii.eqb_refl in Hs. subst s.
    destruct d as [|c1 [|c2 d]]; try done.
    cbn [DateText.is_digits] in Hd. apply andb_prop in Hd as [Hc1 _].
    rewrite !StrFacts.app_cons, StrFacts.app_nil_l in *.
    unfold Datetime.dmY_pattern.
    rewrite (d_group_blank c1 day _ _ [m; Y] _ Hc1 Hdi ltac:(lia) Htail).
    cbn [String.length plus]. rewrite Nat.eqb_refl. cbn [negb].
    rewrite (py_int_blank (String c1 "")) by (cbn; by rewrite ?Hc1).
    rewrite Hdi, py_int_digits, Hmi, py_int_digits, HYi by done.
    by rewrite Hcheck.
  - assert (DateText.skip_blank s = s) as Hskip.
    { destruct s as [|b s]; [done|]. cbn in Hblank |- *. by rewrite Hblank. }
    rewrite Hskip in Hs. subst s.
    rewrite Hfull, Nat.eqb_refl. cbn [negb].
    rewrite !py_int_digits, Hdi, Hmi, HYi by done.
    by rewrite Hcheck.
Qed.

(** [strptime_dmY] accepts exactly the calendar dates written
    [day.month.year], and returns the date written. *)
Lemma strptime_iff_spec s dt :
  Datetime.strptime_dmY s = Ok dt ↔ DateText.spec_dmY s = Some dt.
Proof. split; [apply strptime_sound|apply strptime_complete]. Qed.

(** ** C3: inputs that stop the build *)

Lemma config_raise section key w e w' :
  config section key w = (Raise e, w') →
  w' = w ∧ lookup_or_value_error e ∧ config_lookup (host w) section key = None.
Proof.
  unfold config, config_lookup. unfold_M.
  intros H. repeat case_match; simplify_eq; done.
Qed.

Lemma strptime_raise s e :
  Datetime.strptime_dmY s = Raise e → lookup_or_value_error e.
Proof.
  unfold Datetime.strptime_dmY. intros H.
  repeat case_match; simplify_eq; done.
Qed.

Lemma item_entry_raise home_url contact author article w e w' :
  item_entry home_url contact author article w = (Raise e, w') →
  w' = w ∧ lookup_or_value_error e.
Proof.
  intros H. split; [by eapply reads_inv, H; auto with reads|].
  unfold item_entry in H. unfold_M.
  repeat case_match; simplify_eq; try done.
  by eapply strptime_raise.
Qed.

Lemma for_articles_raise home_url contact author articles acc w e w' :
  for_articles home_url contact author articles acc w = (Raise e, w') →
  w' = w ∧ lookup_or_value_error e.
Proof.
  revert acc. induction articles as [|a rest IH]; intros acc;
    cbn [for_articles]; [done|].
  intros [H|(item & w1 & [-> _]%item_entry_ok & H)]%bind_raise.
  - by eapply item_entry_raise.
  - by eapply IH.
Qed.

Lemma article_index_raise w e w' :
  article_index w = (Raise e, w') →
  w' = w
  ∧ (lookup_or_value_error e
     ∨ e = TypeError ∧ ∃ s, plugin_vars (host w) !! "articles" = Some (PVText s)).
Proof.
  unfold article_index. unfold_M. intros H.
  repeat case_match; simplify_eq; split; try done; try (by left).
  right. eauto.
Qed.

(** How [generate_rss] can fail: nothing has been stored, and the error
    is one of a lookup or of a date, unless the index entry of the scratch
    area is a string. *)
Lemma generate_rss_raise now w e w' :
  generate_rss now w = (Raise e, w') →
  w' = w
  ∧ (lookup_or_value_error e
     ∨ e = TypeError
       ∧ (∀ section key, (section, key) ∈ required_config →
            is_Some (config_lookup (host w) section key))
       ∧ ∃ s, plugin_vars (host w) !! "articles" = Some (PVText s)).
Proof.
  unfold generate_rss. intros H.
  apply bind_raise in H as [[=]|(ver & w1 & [= <- <-] & H)].
  do 7 (let Hc := fresh "Hc" in
        apply bind_raise in H as [Hc|(? & ? & Hc & H)];
        [apply config_raise in Hc as (-> & ? & _); by auto|];
        apply config_ok in Hc as [-> Hc]; apply config_value_lookup in Hc).
  apply bind_raise in H as [Hi|(arts & ? & [-> _]%article_index_ok & H)].
  { apply article_index_raise in Hi as (-> & [?|(-> & ?)]); [by auto|].
    split; [done|]. right. split; [done|]. split; [|done].
    intros section key Hin. unfold required_config in Hin.
    repeat (apply elem_of_cons in Hin as [[= -> ->]|Hin]; [by eexists|]).
    by apply elem_of_nil in Hin. }
  apply bind_raise in H as [Hl|(feed & ? & [-> _]%for_articles_ok & H)].
  { apply for_articles_raise in Hl as (-> & ?). by auto. }
  apply bind_raise in H as [[=]|([] & ? & _ & [=])].
Qed.

(** A fatal input leaves no way to assemble a feed. *)
Lemma fatal_input_no_feed h now channel articles blocks :
  fatal_input h → feed_parts h now channel articles blocks → False.
Proof.
  intros Hfatal (title & description & home_url & language & contact & author
                 & image & Ht & Hd & Hh & Hl & Hc & Ha & Him & _ & Hindex & Hb).
  apply config_value_lookup in Ht, Hd, Hh, Hl, Hc, Ha, Him.
  destruct Hfatal as [section key Hin Hnone
                     |arts article item f Hindex' Hin Hitem Hnone
                     |arts article item date Hindex' Hin Hitem Hdate Hbad].
  - unfold required_config in Hin. unfold config_lookup in Hnone.
    repeat (apply elem_of_cons in Hin as [[= -> ->]|Hin]; [congruence|]).
    by apply elem_of_nil in Hin.
  - rewrite (index_of_inj _ _ _ Hindex Hindex') in Hb.
    apply list_elem_of_lookup in Hin as [i Hi].
    destruct (Forall2_lookup_l _ _ _ _ _ Hb Hi) as (block & _ & Hof).
    destruct Hof as (item' & excerpt & meta & date & dt & t & p
                     & Hitem' & Hex & Hmeta & Hdate & _ & Htitle & Hperm & _).
    rewrite Hitem in Hitem'. injection Hitem' as <-.
    destruct f; cbn [field_lookup] in Hnone; rewrite ?Hmeta in Hnone;
      cbn in Hnone; congruence.
  - rewrite (index_of_inj _ _ _ Hindex Hindex') in Hb.
    apply list_elem_of_lookup in Hin as [i Hi].
    destruct (Forall2_lookup_l _ _ _ _ _ Hb Hi) as (block & _ & Hof).
    destruct Hof as (item' & excerpt & meta & date' & dt & t & p
                     & Hitem' & _ & Hmeta & Hdate' & Hparse & _).
    rewrite Hitem in Hitem'. injection Hitem' as <-.
    cbn [field_lookup] in Hdate. rewrite Hmeta in Hdate. cbn in Hdate.
    rewrite Hdate' in Hdate. injection Hdate as <-.
    apply strptime_sound in Hparse. unfold DateText.is_dmY in Hbad.
    by rewrite Hparse in Hbad.
Qed.

(** C3. When a required configuration key is absent, or an article of
    the index lacks its title, excerpt, date or permalink, or its date is
    not a calendar date written [day.month.year], [generate_rss] raises a
    lookup or value error and leaves the host object and the disk exactly
    as they were: no feed, partial or otherwise, is stored, and no date is
    emitted. *)
Theorem generate_rss_fatal now w :
  fatal_input (host w) →
  ∃ e, generate_rss now w = (Raise e, w) ∧ lookup_or_value_error e.
Proof.
  intros Hfatal.
  destruct (generate_rss now w) as [[h'|e] w'] eqn:E.
  - apply generate_rss_ok in E as (channel & articles & blocks & Hparts & _).
    destruct (fatal_input_no_feed _ _ _ _ _ Hfatal Hparts).
  - apply generate_rss_raise in E as (-> & [He|(-> & Hconf & s & Hs)]).
    + by exists e.
    + exfalso. destruct Hfatal as [section key Hin Hnone
                                  |arts article item f (t & Ht & _) _ _ _
                                  |arts article item date (t & Ht & _) _ _ _ _].
      * destruct (Hconf section key Hin) as [v Hv]. congruence.
      * congruence.
      * congruence.
Qed.

Lemma generate_rss_fatal_witness :
  fatal_input (host Sample.iso)
  ∧ ∃ e, generate_rss Sample.now Sample.iso = (Raise e, Sample.iso)
         ∧ lookup_or_value_error e.
Proof.
  assert (fatal_input (host Sample.iso)) as H.
  { apply (malformed_date _ ["a"] "a" Sample.iso_dated "2024-02-01").
    - eexists. split; vm_compute; reflexivity.
    - constructor.
    - vm_compute; reflexivity.
    - vm_compute; reflexivity.
    - vm_compute; reflexivity. }
  split; [exact H|]. exact (generate_rss_fatal Sample.now Sample.iso H).
Defined.

(** * Further properties *)

(** ** Tag stripping *)

Lemma tag_free_drop s k :
  Tags.tag_free s = true → Tags.tag_free (Re.drop k s) = true.
Proof.
  revert s. induction k as [|k IH]; intros s; [by destruct s|].
  destruct s as [|c s]; [done|]. cbn [Tags.tag_free Re.drop].
  destruct (Tags.tag_at (String c s)); [done|]. apply IH.
Qed.

Lemma tag_free_head s : Tags.tag_free s = true → Tags.tag_at s = None.
Proof.
  destruct s as [|c s]; [done|]. cbn [Tags.tag_free].
  by destruct (Tags.tag_at (String c s)).
Qed.

(** X1. After a stripping pass no position of the text starts a match
    of [<.*?>]: nothing that the pattern would remove is left. *)
Theorem strip_tags_leaves_no_tag (s : string) (k : nat) :
  Re.re_match tag_pattern (Re.drop k (strip_tags s)) = None.
Proof.
  rewrite TagsFacts.re_match_tag, tag_free_head; [done|].
  apply tag_free_drop, TagsFacts.tag_free_sub.
Qed.

Lemma closes_lacks_within s n :
  Tags.closes s = Some n → lacks_within Str.nl n s = true.
Proof.
  revert n. induction s as [|c s IH]; intros n; [done|]. cbn [Tags.closes].
  destruct (Ascii.eqb_spec c ">") as [->|]; [by intros [= <-]|].
  destruct (Ascii.eqb c Str.nl) eqn:Hnl; [done|].
  destruct (Tags.closes s) as [m|] eqn:E; [|done].
  intros [= <-]. cbn [lacks_within]. rewrite Hnl. by apply IH.
Qed.

Lemma length_chars s :
  length (list_ascii_of_string s) = String.length s.
Proof. induction s as [|c s IH]; [done|]. cbn. by rewrite IH. Qed.

Lemma sub_sublist k s :
  list_ascii_of_string (Re.sub_empty tag_pattern k s)
  `sublist_of` list_ascii_of_string s.
Proof.
  revert k. induction s as [|c s IH]; intros k; [by destruct k|].
  destruct k as [|k].
  - destruct (TagsFacts.tag_at_cases (String c s)) as [Hn|[j Hj]].
    + rewrite (TagsFacts.sub_keep _ _ Hn). cbn [list_ascii_of_string].
      by apply sublist_skip.
    + rewrite (TagsFacts.sub_tag _ _ _ Hj). cbn [list_ascii_of_string].
      by apply sublist_cons.
  - rewrite TagsFacts.sub_skip. cbn [list_ascii_of_string].
    by apply sublist_cons.
Qed.

Lemma sub_count_nl k s :
  lacks_within Str.nl k s = true →
  count_char Str.nl (Re.sub_empty tag_pattern k s) = count_char Str.nl s.
Proof.
  revert k. induction s as [|c s IH]; intros k; [by destruct k|].
  destruct k as [|k].
  - intros _. destruct (TagsFacts.tag_at_cases (String c s)) as [Hn|[j Hj]].
    + rewrite (TagsFacts.sub_keep _ _ Hn). cbn [count_char]. by rewrite IH.
    + rewrite (TagsFacts.sub_tag _ _ _ Hj). cbn [count_char].
      cbn [Tags.tag_at] in Hj.
      destruct (Ascii.eqb_spec c "<") as [->|]; [|done].
      destruct (Tags.closes s) as [m|] eqn:E; [|done].
      injection Hj as <-. rewrite IH; [done|by apply closes_lacks_within].
  - cbn [lacks_within]. intros [Hc Hk]%andb_prop.
    rewrite TagsFacts.sub_skip. cbn [count_char].
    apply negb_true_iff in Hc. rewrite Hc. by apply IH.
Qed.

(** X2. Stripping only deletes: the result is the input with some
    characters left out (in the same order), never longer, and no newline
    is ever deleted, so the text keeps its number of lines. *)
Theorem strip_tags_only_deletes (s : string) :
  list_ascii_of_string (strip_tags s) `sublist_of` list_ascii_of_string s
  ∧ (String.length (strip_tags s) ≤ String.length s)%nat
  ∧ count_char Str.nl (strip_tags s) = count_char Str.nl s.
Proof.
  unfold strip_tags. split; [apply sub_sublist|]. split.
  - pose proof (sublist_length _ _ (sub_sublist 0 s)) as H.
    by rewrite !length_chars in H.
  - by apply sub_count_nl.
Qed.
Lemma closes_lacks_gt s : Str.lacks ">" s = true → Tags.closes s = None.
Proof.
  induction s as [|c s IH]; [done|]. cbn [Str.lacks Tags.closes].
  intros [Hc Hs]%andb_prop. apply negb_true_iff in Hc. rewrite Hc, IH by done.
  by destruct (Ascii.eqb c Str.nl).
Qed.

Lemma tag_free_lacks_gt s : Str.lacks ">" s = true → Tags.tag_free s = true.
Proof.
  induction s as [|c s IH]; [done|]. cbn [Str.lacks Tags.tag_free Tags.tag_at].
  intros [_ Hs]%andb_prop. rewrite closes_lacks_gt, IH by done.
  by destruct (Ascii.eqb c "<").
Qed.

(** X3. A text without [<], or without [>], is returned unchanged; in
    particular an unterminated [<] stays in the description. *)
Theorem strip_tags_without_bracket (s : string) :
  Str.lacks "<" s = true ∨ Str.lacks ">" s = true → strip_tags s = s.
Proof.
  unfold strip_tags. intros [H|H].
  - rewrite <-(StrFacts.app_nil_r s) at 1.
    rewrite TagsFacts.sub_no_lt by done. cbn. apply StrFacts.app_nil_r.
  - by apply TagsFacts.sub_tag_free, tag_free_lacks_gt.
Qed.

Lemma strip_tags_without_bracket_witness :
  (Str.lacks "<" "1 < 2, unclosed <b" = true
   ∨ Str.lacks ">" "1 < 2, unclosed <b" = true)
  ∧ strip_tags "1 < 2, unclosed <b" = "1 < 2, unclosed <b".
Proof.
  assert (Str.lacks "<" "1 < 2, unclosed <b" = true
          ∨ Str.lacks ">" "1 < 2, unclosed <b" = true) as H
    by (right; vm_compute; reflexivity).
  split; [exact H|]. exact (strip_tags_without_bracket _ H).
Defined.

Lemma closes_body body post :
  Str.lacks Str.nl body = true → Str.lacks ">" body = true →
  Tags.closes (body +:+ String ">" post) = Some (S (String.length body)).
Proof.
  induction body as [|c body IH]; [done|]. cbn [Str.lacks].
  intros [Hn Hb]%andb_prop [Hg Hb']%andb_prop.
  rewrite StrFacts.app_cons. cbn [Tags.closes String.length].
  apply negb_true_iff in Hn, Hg. rewrite Hn, Hg, IH by done. done.
Qed.

Lemma sub_skip_app a b j :
  Re.sub_empty tag_pattern (String.length a + j) (a +:+ b)
  = Re.sub_empty tag_pattern j b.
Proof.
  induction a as [|c a IH]; [done|].
  rewrite StrFacts.app_cons. cbn [String.length plus].
  by rewrite TagsFacts.sub_skip.
Qed.

(** X4. A [<] is closed by the first [>] on its line: when the text
    before holds no [<] and the body holds neither a newline nor a [>]
    (it may hold further [<]), the whole of [<body>] is removed and the
    text before is kept. *)
Theorem strip_tags_removes_tag (pre body post : string) :
  Str.lacks "<" pre = true →
  Str.lacks Str.nl body = true →
  Str.lacks ">" body = true →
  strip_tags (pre +:+ "<" +:+ body +:+ ">" +:+ post) = pre +:+ strip_tags post.
Proof.
  intros Hpre Hnl Hgt. unfold strip_tags.
  rewrite TagsFacts.sub_no_lt by done. f_equal.
  rewrite !StrFacts.app_cons, !StrFacts.app_nil_l.
  rewrite (TagsFacts.sub_tag "<" _ (S (String.length body))).
  - replace (S (String.length body)) with (String.length body + 1)%nat by lia.
    rewrite sub_skip_app. by rewrite TagsFacts.sub_skip.
  - cbn [Tags.tag_at]. change (Ascii.eqb "<" "<") with true. cbn beta iota.
    by rewrite closes_body.
Qed.

Lemma strip_tags_removes_tag_witness :
  Str.lacks "<" "a > b " = true
  ∧ Str.lacks Str.nl "<i class=x" = true
  ∧ Str.lacks ">" "<i class=x" = true
  ∧ strip_tags ("a > b " +:+ "<" +:+ "<i class=x" +:+ ">" +:+ "c>")
    = "a > b " +:+ strip_tags "c>".
Proof.
  assert (Str.lacks "<" "a > b " = true) as H1 by (vm_compute; reflexivity).
  assert (Str.lacks Str.nl "<i class=x" = true) as H2
    by (vm_compute; reflexivity).
  assert (Str.lacks ">" "<i class=x" = true) as H3 by (vm_compute; reflexivity).
  repeat (split; [assumption|]).
  exact (strip_tags_removes_tag _ _ _ H1 H2 H3).
Defined.
(** ** Dates *)

(** X5. [datetime.strptime(s, "%d.%m.%Y")] accepts exactly the texts
    that are one or two digits (or a blank and a digit), a dot, one or two
    digits, a dot and four digits and that name a day of the calendar in
    the years 1 to 9999; the date returned is the one written, at
    midnight. *)
Theorem strptime_accepts_exactly_dmY (s : string) (dt : Datetime.datetime) :
  Datetime.strptime_dmY s = Ok dt ↔ DateText.spec_dmY s = Some dt.
Proof. apply strptime_iff_spec. Qed.

Lemma strptime_ok_inv s dt :
  Datetime.strptime_dmY s = Ok dt →
  Datetime._check_date_fields (Datetime.year dt) (Datetime.month dt)
    (Datetime.day dt) = true
  ∧ Datetime.hour dt = 0 ∧ Datetime.minute dt = 0 ∧ Datetime.second dt = 0.
Proof.
  unfold Datetime.strptime_dmY. intros H.
  repeat case_match; simplify_eq. done.
Qed.

(** X6. Every date text that is accepted is published at midnight UTC:
    the parsed date is a valid calendar date with time of day 00:00:00,
    its pubDate text ends in [ 00:00:00 +0000], and from the year 1000 on
    the text has the shape [Dow, DD Mon YYYY HH:MM:SS +0000]. *)
Theorem pubDate_is_midnight (s : string) (dt : Datetime.datetime) :
  Datetime.strptime_dmY s = Ok dt →
  Datetime.valid dt = true
  ∧ Str.ends_with " 00:00:00 +0000" (Datetime.strftime_rfc822 dt)
  ∧ (1000 ≤ Datetime.year dt →
     has_shape rfc822_utc (Datetime.strftime_rfc822 dt) = true).
Proof.
  intros (Hdate & Hh & Hm & Hs)%strptime_ok_inv.
  assert (Datetime.valid dt = true) as Hvalid.
  { unfold Datetime.valid. by rewrite Hdate, Hh, Hm, Hs. }
  split; [done|]. split; [|by apply strftime_shape].
  unfold Datetime.strftime_rfc822. rewrite Hh, Hm, Hs.
  do 7 apply ends_with_app_r. apply ends_with_refl.
Qed.

Lemma pubDate_is_midnight_witness :
  Datetime.strptime_dmY "29.02.2024" = Ok (Datetime.mk_datetime 2024 2 29 0 0 0)
  ∧ (Datetime.valid (Datetime.mk_datetime 2024 2 29 0 0 0) = true
     ∧ Str.ends_with " 00:00:00 +0000"
         (Datetime.strftime_rfc822 (Datetime.mk_datetime 2024 2 29 0 0 0))
     ∧ (1000 ≤ Datetime.year (Datetime.mk_datetime 2024 2 29 0 0 0) →
        has_shape rfc822_utc
          (Datetime.strftime_rfc822 (Datetime.mk_datetime 2024 2 29 0 0 0))
        = true)).
Proof.
  assert (Datetime.strptime_dmY "29.02.2024"
          = Ok (Datetime.mk_datetime 2024 2 29 0 0 0)) as H
    by (vm_compute; reflexivity).
  split; [exact H|]. exact (pubDate_is_midnight _ _ H).
Defined.

(** ** When the build succeeds *)

Lemma index_of_lookup h articles :
  index_of h articles ↔ index_lookup h = Some articles.
Proof.
  unfold index_of, index_lookup. split.
  - by intros (t & -> & ?).
  - destruct (plugin_vars h !! "articles") as [[s|t]|]; try done. eauto.
Qed.

Lemma item_of_ready h home_url contact author article :
  (∃ block, item_of h home_url contact author article block)
  ↔ article_ready h article = true.
Proof.
  unfold article_ready, item_ready, item_of. split.
  - intros (block & item & excerpt & meta & date & dt & title & permalink
            & -> & Hex & Hmeta & Hdate & Hparse & Htitle & Hperm & _).
    cbn [field_lookup]. rewrite Htitle, Hex, Hmeta. cbn. rewrite Hdate, Hperm.
    apply strptime_iff_spec in Hparse. unfold DateText.is_dmY.
    by rewrite Hparse.
  - destruct (content h !! article) as [item|]; [|done].
    cbn [field_lookup].
    destruct (item_text item !! "title") as [title|] eqn:Htitle; [|done].
    destruct (item_text item !! "excerpt") as [excerpt|] eqn:Hex; [|done].
    destruct (item_meta item) as [meta|] eqn:Hmeta; [|done]. cbn.
    destruct (meta !! "date") as [date|] eqn:Hdate; [|done].
    destruct (meta !! "permalink") as [permalink|] eqn:Hperm; [|done].
    unfold DateText.is_dmY.
    destruct (DateText.spec_dmY date) as [dt|] eqn:Hparse; [|done].
    intros _. apply strptime_iff_spec in Hparse.
    eexists _, item, excerpt, meta, date, dt, title, permalink.
    repeat (split; [done|]). reflexivity.
Qed.

Lemma blocks_exist h home_url contact author articles :
  forallb (article_ready h) articles = true ↔
  ∃ blocks, Forall2 (item_of h home_url contact author) articles blocks.
Proof.
  induction articles as [|a rest IH]; cbn [forallb].
  - split; [intros _; exists []; constructor|done].
  - rewrite andb_true_iff, IH, <-(item_of_ready h home_url contact author). split.
    + intros [[block Hb] [blocks Hbs]]. exists (block :: blocks). by constructor.
    + intros [blocks Hbs].
      apply Forall2_cons_inv_l in Hbs as (block & blocks' & ? & ? & ->). eauto.
Qed.

Lemma config_ready_spec h :
  config_ready h = true ↔
  ∀ section key, (section, key) ∈ required_config →
    is_Some (config_lookup h section key).
Proof.
  unfold config_ready. rewrite forallb_forall. split.
  - intros H section key Hin%list_elem_of_In. specialize (H _ Hin).
    cbn in H. by destruct (config_lookup h section key).
  - intros H [section key] Hin%list_elem_of_In.
    destruct (H section key Hin) as [v Hv]. cbn. by rewrite Hv.
Qed.

Lemma ready_parts h now :
  ready h = true ↔ ∃ channel articles blocks, feed_parts h now channel articles blocks.
Proof.
  unfold ready. rewrite andb_true_iff, config_ready_spec. split.
  - intros [Hconf Hindex].
    destruct (index_lookup h) as [articles|] eqn:Hi; [|done].
    assert (∀ section key, (section, key) ∈ required_config →
              ∃ v, config_value h section key v) as Hv.
    { intros section key Hin. destruct (Hconf section key Hin) as [v Hv].
      exists v. by apply config_value_lookup. }
    unfold required_config in Hv.
    destruct (Hv "lste" "title") as [title ?]; [repeat constructor|].
    destruct (Hv "lste" "description") as [description ?]; [repeat constructor|].
    destruct (Hv "rss" "home_url") as [home_url ?]; [repeat constructor|].
    destruct (Hv "rss" "language") as [language ?]; [repeat constructor|].
    destruct (Hv "rss" "contact") as [contact ?]; [repeat constructor|].
    destruct (Hv "rss" "author") as [author ?]; [repeat constructor|].
    destruct (Hv "rss" "image") as [image ?]; [repeat constructor|].
    apply (blocks_exist h home_url contact author) in Hindex as [blocks Hb].
    eexists _, articles, blocks.
    exists title, description, home_url, language, contact, author, image.
    do 7 (split; [done|]). split; [reflexivity|].
    split; [by apply index_of_lookup|done].
  - intros (channel & articles & blocks & title & description & home_url
            & language & contact & author & image
            & Ht & Hd & Hh & Hl & Hc & Ha & Him & _ & Hindex & Hb).
    apply config_value_lookup in Ht, Hd, Hh, Hl, Hc, Ha, Him.
    unfold config_lookup in *. split.
    + intros section key Hin. unfold required_config in Hin.
      repeat (apply elem_of_cons in Hin as [[= -> ->]|Hin]; [by eexists|]).
      by apply elem_of_nil in Hin.
    + apply index_of_lookup in Hindex. rewrite Hindex.
      apply (blocks_exist h home_url contact author). eauto.
Qed.

(** X7. [generate_rss] succeeds exactly on the hosts that are ready:
    the seven configuration keys are present, the scratch area holds the
    article index, and every identifier of the index names a content item
    with title, excerpt, permalink and a date that is a calendar date
    written [day.month.year].  On every other host it raises. *)
Theorem generate_rss_succeeds_iff_ready now w :
  (∃ h' w', generate_rss now w = (Ok h', w')) ↔ ready (host w) = true.
Proof.
  rewrite (ready_parts _ now). split.
  - intros (h' & w' & (c & a & b & ? & _)%generate_rss_ok). eauto.
  - intros (c & a & b & Hp).
    eexists _, _. apply generate_rss_ok. exists c, a, b. by split.
Qed.
(** ** How the build fails *)

Lemma bind_gets {A B} (g : lste → A) (f : A → M B) w :
  (gets g ≫= f) w = f (g (host w)) w.
Proof. reflexivity. Qed.

Lemma bind_config_some {B} section key v (f : string → M B) w :
  config_lookup (host w) section key = Some v →
  (config section key ≫= f) w = f v w.
Proof.
  intros H. rewrite bind_run.
  assert (config section key w = (Ok v, w)) as ->; [|done].
  apply config_ok. split; [done|]. by apply config_value_lookup.
Qed.

Lemma bind_config_none {B} section key (f : string → M B) w :
  config_lookup (host w) section key = None →
  (config section key ≫= f) w
  = (Raise (KeyError (match config_file (host w) !! section with
                      | Some _ => key
                      | None => section
                      end)), w).
Proof.
  unfold config_lookup. intros H. rewrite bind_run.
  unfold config. unfold_M.
  destruct (config_file (host w) !! section) as [sec|]; [|done].
  cbn in H. by rewrite H.
Qed.

Ltac run_config :=
  repeat match goal with
    | H : config_lookup _ ?s ?k = Some ?v |- context [config ?s ?k ≫= ?f] =>
        rewrite (bind_config_some s k v f _ H)
    end.

(** X8. The configuration is read first and in a fixed order (title,
    description, home_url, language, contact, author, image): the first
    key that cannot be read decides the error, whatever the articles look
    like.  The [KeyError] names the section when the section is missing,
    the key otherwise, and nothing is stored. *)
Theorem generate_rss_reports_first_missing_key now w i section key :
  required_config !! i = Some (section, key) →
  (∀ j s k, (j < i)%nat → required_config !! j = Some (s, k) →
            is_Some (config_lookup (host w) s k)) →
  config_lookup (host w) section key = None →
  generate_rss now w
  = (Raise (KeyError (match config_file (host w) !! section with
                      | Some _ => key
                      | None => section
                      end)), w).
Proof.
  intros Hi Hprev Hnone. unfold generate_rss. rewrite bind_gets.
  unfold required_config in *.
  do 7 (destruct i as [|i];
        [injection Hi as <- <-; run_config; by rewrite bind_config_none|];
        match type of Hi with
        | (?x :: ?l) !! S ?n = _ =>
            let H := fresh "Hv" in
            destruct (Hprev 0%nat x.1 x.2 ltac:(lia) eq_refl) as [? H];
            cbn [fst snd] in H;
            change ((x :: l) !! S n) with (l !! n) in Hi;
            let Hnext := fresh "Hnext" in
            assert (∀ j s k, (j < i)%nat → l !! j = Some (s, k) →
                      is_Some (config_lookup (host w) s k)) as Hnext
              by (intros j s k Hj Hl; apply (Hprev (S j) s k); [lia|exact Hl]);
            clear Hprev; rename Hnext into Hprev
        end).
  done.
Qed.
Lemma generate_rss_configured now w
    title description home_url language contact author image :
  config_lookup (host w) "lste" "title" = Some title →
  config_lookup (host w) "lste" "description" = Some description →
  config_lookup (host w) "rss" "home_url" = Some home_url →
  config_lookup (host w) "rss" "language" = Some language →
  config_lookup (host w) "rss" "contact" = Some contact →
  config_lookup (host w) "rss" "author" = Some author →
  config_lookup (host w) "rss" "image" = Some image →
  generate_rss now w =
  (articles ← article_index;
   feed_content ←
     for_articles home_url contact author articles
       (rss_open +:+
        channel_block title home_url description
          (Datetime.strftime_rfc822 now) language (version (host w))
          contact author image);
   set_plugin_var "rss" (PVText (feed_content +:+ rss_close));;
   gets id) w.
Proof.
  intros. unfold generate_rss. rewrite bind_gets. by run_config.
Qed.

Lemma config_ready_values h :
  config_ready h = true →
  ∃ title description home_url language contact author image,
    config_lookup h "lste" "title" = Some title
    ∧ config_lookup h "lste" "description" = Some description
    ∧ config_lookup h "rss" "home_url" = Some home_url
    ∧ config_lookup h "rss" "language" = Some language
    ∧ config_lookup h "rss" "contact" = Some contact
    ∧ config_lookup h "rss" "author" = Some author
    ∧ config_lookup h "rss" "image" = Some image.
Proof.
  intros H. pose proof (proj1 (config_ready_spec h) H) as Hall.
  unfold required_config in Hall.
  destruct (Hall "lste" "title") as [title ?]; [repeat constructor|].
  destruct (Hall "lste" "description") as [description ?]; [repeat constructor|].
  destruct (Hall "rss" "home_url") as [home_url ?]; [repeat constructor|].
  destruct (Hall "rss" "language") as [language ?]; [repeat constructor|].
  destruct (Hall "rss" "contact") as [contact ?]; [repeat constructor|].
  destruct (Hall "rss" "author") as [author ?]; [repeat constructor|].
  destruct (Hall "rss" "image") as [image ?]; [repeat constructor|].
  by exists title, description, home_url, language, contact, author, image.
Qed.

(** X9. With the configuration in place, a scratch area without the
    article index stops the build: [KeyError('articles')] when the entry
    (or the list inside it) is absent, [TypeError] when the entry is a
    string.  Nothing is stored. *)
Theorem generate_rss_without_index now w :
  config_ready (host w) = true →
  index_lookup (host w) = None →
  generate_rss now w
  = (Raise (match plugin_vars (host w) !! "articles" with
            | Some (PVText _) => TypeError
            | _ => KeyError "articles"
            end), w).
Proof.
  intros (title & description & home_url & language & contact & author & image
          & ? & ? & ? & ? & ? & ? & ?)%config_ready_values Hindex.
  rewrite (generate_rss_configured now w title description home_url language
             contact author image) by done.
  rewrite bind_run. unfold index_lookup in Hindex.
  unfold article_index. unfold_M.
  destruct (plugin_vars (host w) !! "articles") as [[s|t]|]; [done| |done].
  by rewrite Hindex.
Qed.

Lemma generate_rss_without_index_witness :
  config_ready (host Sample2.no_index) = true
  ∧ index_lookup (host Sample2.no_index) = None
  ∧ generate_rss Sample.now Sample2.no_index
    = (Raise (match plugin_vars (host Sample2.no_index) !! "articles" with
              | Some (PVText _) => TypeError
              | _ => KeyError "articles"
              end), Sample2.no_index).
Proof.
  assert (config_ready (host Sample2.no_index) = true) as H1
    by (vm_compute; reflexivity).
  assert (index_lookup (host Sample2.no_index) = None) as H2
    by (vm_compute; reflexivity).
  repeat (split; [assumption|]).
  exact (generate_rss_without_index Sample.now _ H1 H2).
Defined.

Lemma generate_rss_reports_first_missing_key_witness :
  required_config !! 2%nat = Some ("rss", "home_url")
  ∧ (∀ j s k, (j < 2)%nat → required_config !! j = Some (s, k) →
              is_Some (config_lookup (host Sample2.no_feed_section) s k))
  ∧ config_lookup (host Sample2.no_feed_section) "rss" "home_url" = None
  ∧ generate_rss Sample.now Sample2.no_feed_section
    = (Raise (KeyError
                (match config_file (host Sample2.no_feed_section) !! "rss" with
                 | Some _ => "home_url"
                 | None => "rss"
                 end)), Sample2.no_feed_section).
Proof.
  assert (required_config !! 2%nat = Some ("rss", "home_url")) as H1
    by reflexivity.
  assert (∀ j s k, (j < 2)%nat → required_config !! j = Some (s, k) →
            is_Some (config_lookup (host Sample2.no_feed_section) s k)) as H2.
  { intros [|[|j]] s k Hj; [| |lia]; intros [= <- <-]; by eexists. }
  assert (config_lookup (host Sample2.no_feed_section) "rss" "home_url" = None)
    as H3 by (vm_compute; reflexivity).
  repeat (split; [assumption|]).
  exact (generate_rss_reports_first_missing_key Sample.now _ _ _ _ H1 H2 H3).
Defined.

Lemma for_articles_ready home_url contact author good rest acc w :
  forallb (article_ready (host w)) good = true →
  ∃ blocks,
    Forall2 (item_of (host w) home_url contact author) good blocks
    ∧ for_articles home_url contact author (good ++ rest) acc w
      = for_articles home_url contact author rest (acc +:+ Str.join blocks) w.
Proof.
  revert acc. induction good as [|a good IH]; intros acc; cbn [forallb].
  - intros _. exists []. split; [constructor|].
    cbn. by rewrite StrFacts.app_nil_r.
  - intros [Ha Hgood]%andb_prop.
    apply (item_of_ready _ home_url contact author) in Ha as [block Hblock].
    destruct (IH (acc +:+ block) Hgood) as (blocks & Hb & Heq).
    exists (block :: blocks). split; [by constructor|].
    cbn [app for_articles]. rewrite bind_run.
    assert (item_entry home_url contact author a w = (Ok block, w)) as ->
      by (by apply item_entry_ok).
    rewrite Heq. cbn [Str.join foldr]. by rewrite StrFacts.app_assoc.
Qed.

(** X10. The articles are rendered in index order and the first one
    that cannot be rendered stops the build: when the configuration is in
    place and every identifier before [missing] is ready, an identifier
    that the content store does not hold raises [KeyError(missing)];
    the articles after it are never looked at and nothing is stored. *)
Theorem generate_rss_unknown_article now w good missing rest :
  config_ready (host w) = true →
  index_lookup (host w) = Some (good ++ missing :: rest) →
  forallb (article_ready (host w)) good = true →
  content (host w) !! missing = None →
  generate_rss now w = (Raise (KeyError missing), w).
Proof.
  intros (title & description & home_url & language & contact & author & image
          & ? & ? & ? & ? & ? & ? & ?)%config_ready_values Hindex Hgood Hnone.
  rewrite (generate_rss_configured now w title description home_url language
             contact author image) by done.
  rewrite bind_run.
  assert (article_index w = (Ok (good ++ missing :: rest), w)) as ->.
  { apply article_index_ok. split; [done|]. by apply index_of_lookup. }
  rewrite bind_run.
  destruct (for_articles_ready home_url contact author good (missing :: rest)
              (rss_open +:+
               channel_block title home_url description
                 (Datetime.strftime_rfc822 now) language (version (host w))
                 contact author image) w Hgood) as (blocks & _ & ->).
  cbn [for_articles]. rewrite bind_run.
  unfold item_entry. rewrite bind_gets, bind_run, getitem_run, Hnone. done.
Qed.

Lemma generate_rss_unknown_article_witness :
  config_ready (host Sample2.dangling) = true
  ∧ index_lookup (host Sample2.dangling) = Some (["a"] ++ "gone" :: ["a"])
  ∧ forallb (article_ready (host Sample2.dangling)) ["a"] = true
  ∧ content (host Sample2.dangling) !! "gone" = None
  ∧ generate_rss Sample.now Sample2.dangling
    = (Raise (KeyError "gone"), Sample2.dangling).
Proof.
  assert (config_ready (host Sample2.dangling) = true) as H1
    by (vm_compute; reflexivity).
  assert (index_lookup (host Sample2.dangling) = Some (["a"] ++ "gone" :: ["a"]))
    as H2 by (vm_compute; reflexivity).
  assert (forallb (article_ready (host Sample2.dangling)) ["a"] = true) as H3
    by (vm_compute; reflexivity).
  assert (content (host Sample2.dangling) !! "gone" = None) as H4
    by (vm_compute; reflexivity).
  repeat (split; [assumption|]).
  exact (generate_rss_unknown_article Sample.now _ _ _ _ H1 H2 H3 H4).
Defined.
(** ** What the build depends on *)

Lemma item_of_agree h1 h2 home_url contact author article block :
  content h2 !! article = content h1 !! article →
  item_of h1 home_url contact author article block →
  item_of h2 home_url contact author article block.
Proof.
  intros Heq (item & excerpt & meta & date & dt & title & permalink & Hitem & H).
  exists item, excerpt, meta, date, dt, title, permalink.
  split; [by rewrite Heq|done].
Qed.

(** X11. The feed depends on the content store only through the
    articles of the index: on a second host with the same version,
    configuration and index, whose content store agrees with the first on
    the identifiers of the index (and differs freely elsewhere: drafts,
    entries with missing fields or malformed dates), the build succeeds
    too and gives the same feed. *)
Theorem generate_rss_reads_only_indexed now w1 w2 h1 w1' articles :
  generate_rss now w1 = (Ok h1, w1') →
  index_of (host w1) articles →
  index_of (host w2) articles →
  version (host w2) = version (host w1) →
  config_file (host w2) = config_file (host w1) →
  (∀ article, article ∈ articles →
     content (host w2) !! article = content (host w1) !! article) →
  ∃ h2 w2',
    generate_rss now w2 = (Ok h2, w2') ∧ built_feed h2 = built_feed h1.
Proof.
  intros (channel & arts & blocks & Hparts & -> & ->)%generate_rss_ok
         Hi1 Hi2 Hver Hconf Hcontent.
  destruct Hparts as (title & description & home_url & language & contact
                      & author & image & Ht & Hd & Hh & Hl & Hc & Ha & Him
                      & Hchannel & Hindex & Hblocks).
  rewrite (index_of_inj _ _ _ Hindex Hi1) in Hblocks.
  eexists _, _. split.
  - apply generate_rss_ok. exists channel, articles, blocks.
    split; [|split; reflexivity].
    exists title, description, home_url, language, contact, author, image.
    unfold config_value in *. rewrite Hconf, Hver.
    do 8 (split; [done|]). split; [done|].
    clear Hi1 Hi2 Hindex.
    induction Hblocks as [|a b l1 l2 Hab _ IH]; constructor.
    + eapply item_of_agree; [|exact Hab]. apply Hcontent. by left.
    + apply IH. intros a' Ha'. apply Hcontent. by right.
  - by rewrite !built_feed_store.
Qed.

Lemma generate_rss_reads_only_indexed_witness :
  generate_rss Sample.now Sample.one
  = (Ok Built.host_one, mk_world Built.host_one Sample.disk0)
  ∧ index_of (host Sample.one) ["a"]
  ∧ index_of (host Sample2.with_draft) ["a"]
  ∧ version (host Sample2.with_draft) = version (host Sample.one)
  ∧ config_file (host Sample2.with_draft) = config_file (host Sample.one)
  ∧ (∀ article, article ∈ ["a"] →
       content (host Sample2.with_draft) !! article
       = content (host Sample.one) !! article)
  ∧ ∃ h2 w2',
      generate_rss Sample.now Sample2.with_draft = (Ok h2, w2')
      ∧ built_feed h2 = built_feed Built.host_one.
Proof.
  assert (generate_rss Sample.now Sample.one
          = (Ok Built.host_one, mk_world Built.host_one Sample.disk0)) as H1
    by (vm_compute; reflexivity).
  assert (index_of (host Sample.one) ["a"]) as H2
    by (eexists; split; vm_compute; reflexivity).
  assert (index_of (host Sample2.with_draft) ["a"]) as H3
    by (eexists; split; vm_compute; reflexivity).
  assert (version (host Sample2.with_draft) = version (host Sample.one)) as H4
    by reflexivity.
  assert (config_file (host Sample2.with_draft) = config_file (host Sample.one))
    as H5 by reflexivity.
  assert (∀ article, article ∈ ["a"] →
            content (host Sample2.with_draft) !! article
            = content (host Sample.one) !! article) as H6.
  { intros article Hin. apply list_elem_of_singleton in Hin as ->.
    vm_compute; reflexivity. }
  repeat (split; [assumption|]).
  exact (generate_rss_reads_only_indexed _ _ _ _ _ _ H1 H2 H3 H4 H5 H6).
Defined.

Lemma store_feed_twice h f1 f2 :
  store_feed (store_feed h f1) f2 = store_feed h f2.
Proof. unfold store_feed. cbn. by rewrite insert_insert_eq. Qed.

(** X12. Building again changes nothing: after a successful build, a
    second build at the same clock reading succeeds and leaves the host
    exactly as the first did (the feed stored by the first build has no
    influence on the second). *)
Theorem generate_rss_twice now w h' w' :
  generate_rss now w = (Ok h', w') →
  generate_rss now w' = (Ok h', w').
Proof.
  intros (channel & articles & blocks & Hparts & -> & ->)%generate_rss_ok.
  apply generate_rss_ok. exists channel, articles, blocks. cbn [host fs].
  split; [by apply feed_parts_stale|].
  by rewrite store_feed_twice.
Qed.

Lemma generate_rss_twice_witness :
  generate_rss Sample.now Sample.three
  = (Ok Built.host_three, mk_world Built.host_three Sample.disk0)
  ∧ generate_rss Sample.now (mk_world Built.host_three Sample.disk0)
    = (Ok Built.host_three, mk_world Built.host_three Sample.disk0).
Proof.
  assert (generate_rss Sample.now Sample.three
          = (Ok Built.host_three, mk_world Built.host_three Sample.disk0)) as H
    by (vm_compute; reflexivity).
  split; [exact H|]. exact (generate_rss_twice _ _ _ _ H).
Defined.

(** X13. Whatever [generate_rss] does, succeed or raise, it never
    touches the disk and changes nothing of the host but the scratch entry
    [rss]; when it raises, the host is exactly as it was, so a feed left by
    an earlier build stays in the scratch area. *)
Theorem generate_rss_touches_only_rss now w :
  let w' := (generate_rss now w).2 in
  fs w' = fs w
  ∧ version (host w') = version (host w)
  ∧ config_file (host w') = config_file (host w)
  ∧ content (host w') = content (host w)
  ∧ dist_path (host w') = dist_path (host w)
  ∧ hooks (host w') = hooks (host w)
  ∧ (∀ key, key ≠ "rss" →
       plugin_vars (host w') !! key = plugin_vars (host w) !! key)
  ∧ (∀ e, (generate_rss now w).1 = Raise e → w' = w).
Proof.
  destruct (generate_rss now w) as [[h'|e] w'] eqn:E; cbn [fst snd].
  - apply generate_rss_ok in E as (channel & articles & blocks & _ & -> & ->).
    repeat split; try done.
    intros key Hkey. unfold store_feed. cbn. by rewrite lookup_insert_ne.
  - apply generate_rss_raise in E as [-> _]. by repeat split.
Qed.
(** ** Every article's fields *)

Lemma item_block_author t h p d c a e :
  Str.contains ("<author>" +:+ c +:+ " (" +:+ a +:+ ")</author>")
    (item_block t h p d c a e).
Proof.
  unfold item_block.
  find_mid2 "                " "<author>" c " (" a ")</author>".
Qed.

(** X14. In a finished feed every article of the index has its block:
    the block holds the title as stored (not escaped), the link
    [home_url/permalink], a guid with the same address marked as
    permalink, the pubDate of the parsed date, the author
    [contact (author)], and the stripped excerpt both as description and
    inside the literal-content block. *)
Theorem article_fields_in_feed now w h' w' articles article :
  generate_rss now w = (Ok h', w') →
  index_of (host w) articles →
  article ∈ articles →
  ∃ feed block item title excerpt date dt permalink home_url contact author,
    built_feed h' = Some feed
    ∧ Str.contains block feed
    ∧ content (host w) !! article = Some item
    ∧ field_lookup item Title = Some title
    ∧ field_lookup item Excerpt = Some excerpt
    ∧ field_lookup item Date = Some date
    ∧ field_lookup item Permalink = Some permalink
    ∧ Datetime.strptime_dmY date = Ok dt
    ∧ config_lookup (host w) "rss" "home_url" = Some home_url
    ∧ config_lookup (host w) "rss" "contact" = Some contact
    ∧ config_lookup (host w) "rss" "author" = Some author
    ∧ Str.contains ("<title>" +:+ title +:+ "</title>") block
    ∧ Str.contains ("<link>" +:+ home_url +:+ "/" +:+ permalink +:+ "</link>")
        block
    ∧ Str.contains
        ("<guid isPermaLink=" +:+ Str.Q +:+ "true" +:+ Str.Q +:+ ">"
         +:+ home_url +:+ "/" +:+ permalink +:+ "</guid>") block
    ∧ Str.contains
        ("<pubDate>" +:+ Datetime.strftime_rfc822 dt +:+ "</pubDate>") block
    ∧ Str.contains
        ("<author>" +:+ contact +:+ " (" +:+ author +:+ ")</author>") block
    ∧ Str.contains
        ("<description>" +:+ strip_tags excerpt +:+ "</description>") block
    ∧ Str.contains ("<![CDATA[ " +:+ strip_tags excerpt +:+ " ]]>") block.
Proof.
  intros (channel & arts & blocks & Hparts & -> & ->)%generate_rss_ok Hindex Hin.
  destruct Hparts as (title0 & description & home_url & language & contact
                      & author & image & _ & _ & Hh & _ & Hc & Ha & _ & _
                      & Hindex' & Hblocks).
  rewrite (index_of_inj _ _ _ Hindex' Hindex) in Hblocks.
  apply list_elem_of_lookup in Hin as [i Hi].
  destruct (Forall2_lookup_l _ _ _ _ _ Hblocks Hi) as (block & Hb & Hof).
  destruct Hof as (item & excerpt & meta & date & dt & title & permalink
                   & Hitem & Hex & Hmeta & Hdate & Hparse & Htitle & Hperm & ->).
  apply config_value_lookup in Hh, Hc, Ha.
  eexists _, _, item, title, excerpt, date, dt, permalink, home_url, contact,
    author.
  split; [apply built_feed_store|].
  split.
  { eapply feed_contains_item; [by eapply list_elem_of_lookup_2|].
    apply StrFacts.contains_refl. }
  split; [done|]. cbn [field_lookup]. rewrite Hmeta. cbn.
  do 8 (split; [done|]).
  split; [apply item_block_title|].
  split; [apply item_block_link|].
  split; [apply item_block_guid|].
  split; [apply item_block_pubDate|].
  split; [apply item_block_author|].
  split; [apply item_block_description|apply item_block_cdata].
Qed.
Lemma article_fields_in_feed_witness :
  generate_rss Sample.now Sample.three
  = (Ok Built.host_three, mk_world Built.host_three Sample.disk0)
  ∧ index_of (host Sample.three) ["b"; "a"; "b"]
  ∧ "a" ∈ ["b"; "a"; "b"]
  ∧ ∃ feed block item title excerpt date dt permalink home_url contact author,
      built_feed Built.host_three = Some feed
      ∧ Str.contains block feed
      ∧ content (host Sample.three) !! "a" = Some item
      ∧ field_lookup item Title = Some title
      ∧ field_lookup item Excerpt = Some excerpt
      ∧ field_lookup item Date = Some date
      ∧ field_lookup item Permalink = Some permalink
      ∧ Datetime.strptime_dmY date = Ok dt
      ∧ config_lookup (host Sample.three) "rss" "home_url" = Some home_url
      ∧ config_lookup (host Sample.three) "rss" "contact" = Some contact
      ∧ config_lookup (host Sample.three) "rss" "author" = Some author
      ∧ Str.contains ("<title>" +:+ title +:+ "</title>") block
      ∧ Str.contains
          ("<link>" +:+ home_url +:+ "/" +:+ permalink +:+ "</link>") block
      ∧ Str.contains
          ("<guid isPermaLink=" +:+ Str.Q +:+ "true" +:+ Str.Q +:+ ">"
           +:+ home_url +:+ "/" +:+ permalink +:+ "</guid>") block
      ∧ Str.contains
          ("<pubDate>" +:+ Datetime.strftime_rfc822 dt +:+ "</pubDate>") block
      ∧ Str.contains
          ("<author>" +:+ contact +:+ " (" +:+ author +:+ ")</author>") block
      ∧ Str.contains
          ("<description>" +:+ strip_tags excerpt +:+ "</description>") block
      ∧ Str.contains ("<![CDATA[ " +:+ strip_tags excerpt +:+ " ]]>") block.
Proof.
  assert (generate_rss Sample.now Sample.three
          = (Ok Built.host_three, mk_world Built.host_three Sample.disk0)) as H1
    by (vm_compute; reflexivity).
  assert (index_of (host Sample.three) ["b"; "a"; "b"]) as H2
    by (eexists; split; vm_compute; reflexivity).
  assert ("a" ∈ ["b"; "a"; "b"]) as H3 by repeat constructor.
  repeat (split; [assumption|]).
  exact (article_fields_in_feed _ _ _ _ _ _ H1 H2 H3).
Defined.

(** ** The writer, whatever happens *)

(** X15. Whatever [save_rss_file] does, succeed or raise, the host
    object is unchanged, no directory appears or disappears, and no file
    other than [feed.xml] in the output directory is created or changed. *)
Theorem save_rss_file_touches_only_feed_file w :
  let w' := (save_rss_file w).2 in
  host w' = host w
  ∧ dirs (fs w') = dirs (fs w)
  ∧ ∀ path, path ≠ dist_path (host w) +:+ "/feed.xml" →
      files (fs w') !! path = files (fs w) !! path.
Proof.
  rewrite save_rss_file_run. cbv zeta.
  destruct (plugin_vars (host w) !! "rss") as [[text|t]|]; [| |done];
    (destruct (can_write w); [|done]);
    try destruct (encodable (fs w) text); cbn;
    (repeat split; try done); intros path Hpath;
    by rewrite lookup_insert_ne.
Qed.

(** X16. When the output directory is missing (or the target is a
    directory), [save_rss_file] raises the error of [open] for the path
    [dist_path/feed.xml] and leaves the disk as it was: no file is
    created. *)
Theorem save_rss_file_without_directory w v :
  plugin_vars (host w) !! "rss" = Some v →
  can_write w = false →
  save_rss_file w = (Raise (OSError (dist_path (host w) +:+ "/feed.xml")), w).
Proof. intros Hv Hw. by rewrite save_rss_file_run, Hv, Hw. Qed.

Lemma save_rss_file_without_directory_witness :
  plugin_vars (host Sample2.no_dist) !! "rss" = Some (PVText Built.feed_one)
  ∧ can_write Sample2.no_dist = false
  ∧ save_rss_file Sample2.no_dist
    = (Raise (OSError (dist_path (host Sample2.no_dist) +:+ "/feed.xml")),
       Sample2.no_dist).
Proof.
  assert (plugin_vars (host Sample2.no_dist) !! "rss"
          = Some (PVText Built.feed_one)) as H1 by (vm_compute; reflexivity).
  assert (can_write Sample2.no_dist = false) as H2 by (vm_compute; reflexivity).
  repeat (split; [assumption|]).
  exact (save_rss_file_without_directory _ _ H1 H2).
Defined.

(** X17. The file is opened (and so truncated) before the value is
    written: when the scratch entry [rss] is not a string the write raises
    [TypeError], and what is left is an empty [feed.xml]; a feed written
    earlier is lost. *)
Theorem save_rss_file_not_text w t :
  plugin_vars (host w) !! "rss" = Some (PVTable t) →
  can_write w = true →
  ∃ w',
    save_rss_file w = (Raise TypeError, w')
    ∧ host w' = host w
    ∧ files (fs w') !! (dist_path (host w) +:+ "/feed.xml") = Some "".
Proof.
  intros Hv Hw. rewrite save_rss_file_run, Hv, Hw. eexists. split; [done|].
  split; [done|]. unfold with_file. cbn. apply lookup_insert_eq.
Qed.

Lemma save_rss_file_not_text_witness :
  plugin_vars (host Sample2.not_text) !! "rss" = Some (PVTable ∅)
  ∧ can_write Sample2.not_text = true
  ∧ files (fs Sample2.not_text) !! "dist/feed.xml" = Some "old feed"
  ∧ ∃ w',
      save_rss_file Sample2.not_text = (Raise TypeError, w')
      ∧ host w' = host Sample2.not_text
      ∧ files (fs w') !! (dist_path (host Sample2.not_text) +:+ "/feed.xml")
        = Some "".
Proof.
  assert (plugin_vars (host Sample2.not_text) !! "rss" = Some (PVTable ∅))
    as H1 by (vm_compute; reflexivity).
  assert (can_write Sample2.not_text = true) as H2 by (vm_compute; reflexivity).
  assert (files (fs Sample2.not_text) !! "dist/feed.xml" = Some "old feed")
    as H3 by (vm_compute; reflexivity).
  repeat (split; [assumption|]).
  exact (save_rss_file_not_text _ _ H1 H2).
Defined.

Lemma with_file_twice d path t1 t2 :
  with_file (with_file d path t1) path t2 = with_file d path t2.
Proof. unfold with_file. cbn. by rewrite insert_insert_eq. Qed.

(** X18. Writing again changes nothing: after a successful write, a
    second write succeeds and leaves host and disk exactly as the first
    did. *)
Theorem save_rss_file_twice w h' w' :
  save_rss_file w = (Ok h', w') → save_rss_file w' = (Ok h', w').
Proof.
  intros (text & Htext & Hw & Henc & -> & ->)%save_rss_file_ok.
  apply save_rss_file_ok. exists text. cbn [host fs].
  split; [done|]. split; [exact Hw|]. split; [exact Henc|]. split; [done|].
  unfold feed_path. by rewrite with_file_twice.
Qed.

Lemma save_rss_file_twice_witness :
  save_rss_file (mk_world Built.host_one Sample.disk0)
  = (Ok Built.host_one, Built.saved_one)
  ∧ save_rss_file Built.saved_one = (Ok Built.host_one, Built.saved_one).
Proof.
  assert (save_rss_file (mk_world Built.host_one Sample.disk0)
          = (Ok Built.host_one, Built.saved_one)) as H
    by (vm_compute; reflexivity).
  split; [exact H|]. exact (save_rss_file_twice _ _ _ H).
Defined.

(** ** Build, then write *)




(** X21. When the default encoding cannot encode a character of the
    feed, the write raises [UnicodeEncodeError] (a [ValueError]) after the
    file was opened: what is left is an empty [feed.xml], and a feed
    written earlier is lost. *)
Theorem save_rss_file_not_encodable w text :
  plugin_vars (host w) !! "rss" = Some (PVText text) →
  can_write w = true →
  encodable (fs w) text = false →
  ∃ w',
    save_rss_file w = (Raise (ValueError NotEncodable), w')
    ∧ host w' = host w
    ∧ files (fs w') !! (dist_path (host w) +:+ "/feed.xml") = Some "".
Proof.
  intros Hv Hw Henc. rewrite save_rss_file_run, Hv, Hw, Henc.
  eexists. split; [done|].
  split; [done|]. unfold with_file. cbn. apply lookup_insert_eq.
Qed.

Lemma save_rss_file_not_encodable_witness :
  plugin_vars (host Sample2.ascii_locale) !! "rss"
  = Some (PVText Sample2.accented)
  ∧ can_write Sample2.ascii_locale = true
  ∧ encodable (fs Sample2.ascii_locale) Sample2.accented = false
  ∧ files (fs Sample2.ascii_locale) !! "dist/feed.xml" = Some "old feed"
  ∧ ∃ w',
      save_rss_file Sample2.ascii_locale = (Raise (ValueError NotEncodable), w')
      ∧ host w' = host Sample2.ascii_locale
      ∧ files (fs w')
        !! (dist_path (host Sample2.ascii_locale) +:+ "/feed.xml")
        = Some "".
Proof.
  assert (plugin_vars (host Sample2.ascii_locale) !! "rss"
          = Some (PVText Sample2.accented)) as H1 by (vm_compute; reflexivity).
  assert (can_write Sample2.ascii_locale = true) as H2
    by (vm_compute; reflexivity).
  assert (encodable (fs Sample2.ascii_locale) Sample2.accented = false) as H3
    by (vm_compute; reflexivity).
  assert (files (fs Sample2.ascii_locale) !! "dist/feed.xml" = Some "old feed")
    as H4 by (vm_compute; reflexivity).
  repeat (split; [assumption|]).
  exact (save_rss_file_not_encodable _ _ H1 H2 H3).
Defined.

(** * C1: the blocks of the document *)

(** ** Occurrences in a concatenation *)

Lemma prefixb_app_l p s b : prefixb p s = true → prefixb p (s +:+ b) = true.
Proof.
  revert s. induction p as [|c p IH]; intros s; [done|].
  destruct s as [|a s]; [done|]. rewrite StrFacts.app_cons. cbn [prefixb].
  intros [-> ?]%andb_prop. by rewrite IH.
Qed.

Lemma prefixb_app_cases p s b :
  prefixb p (s +:+ b) = true →
  prefixb p s = true
  ∨ ∃ c q, p = s +:+ String c q ∧ prefixb (String c q) b = true.
Proof.
  revert s. induction p as [|c p IH]; intros s; [by left|].
  destruct s as [|a s].
  - rewrite StrFacts.app_nil_l. intros H. right. by exists c, p.
  - rewrite StrFacts.app_cons. cbn [prefixb].
    intros [Hc [Hs|(c' & q & -> & Hq)]%IH]%andb_prop.
    + left. by rewrite Hc, Hs.
    + right. exists c', q. apply Ascii.eqb_eq in Hc as ->.
      by rewrite StrFacts.app_cons.
Qed.

Lemma lacks_mid c u q : Str.lacks c (u +:+ String c q) = false.
Proof.
  rewrite StrFacts.lacks_app. cbn [Str.lacks]. rewrite Ascii.eqb_refl.
  cbn. apply andb_false_r.
Qed.

(** A text with a clean end is counted on its own. *)
Lemma occurrences_clean p a b :
  prefixb p "" = false → clean_end p a = true →
  occurrences p (a +:+ b) = (occurrences p a + occurrences p b)%nat.
Proof.
  intros Hp. induction a as [|x a IH]; cbn [clean_end].
  - intros _. rewrite StrFacts.app_nil_l. cbn [occurrences]. by rewrite Hp.
  - intros [Hx Ha]%andb_prop. rewrite StrFacts.app_cons. cbn [occurrences].
    rewrite IH by done. rewrite <-StrFacts.app_cons.
    assert (prefixb p (String x a +:+ b) = prefixb p (String x a)) as ->; [|lia].
    destruct (prefixb p (String x a)) eqn:E; [by apply prefixb_app_l|].
    rewrite orb_false_r in Hx. apply negb_true_iff in Hx.
    destruct (prefixb p (String x a +:+ b)) eqn:E2; [|done].
    apply prefixb_app_cases in E2 as [E2|(c & q & -> & _)]; [congruence|].
    by rewrite prefixb_app in Hx.
Qed.

(** A text without the needle, followed by a text that cannot continue
    one, adds nothing to the count. *)
Lemma occurrences_value p v b :
  containsb p v = false → head_free p b = true →
  occurrences p (v +:+ b) = occurrences p b.
Proof.
  intros Hv Hb. induction v as [|x v IH]; [by rewrite StrFacts.app_nil_l|].
  cbn [containsb] in Hv. apply orb_false_elim in Hv as [Hx Hv].
  rewrite StrFacts.app_cons. cbn [occurrences]. rewrite IH by done.
  rewrite <-StrFacts.app_cons.
  destruct (prefixb p (String x v +:+ b)) eqn:E; [|done].
  apply prefixb_app_cases in E as [E|(c & q & -> & Hq)]; [congruence|].
  destruct b as [|c' b]; [done|]. cbn [prefixb] in Hq.
  apply andb_prop in Hq as [->%Ascii.eqb_eq _].
  rewrite StrFacts.app_cons in Hb. cbn [head_free] in Hb.
  by rewrite lacks_mid in Hb.
Qed.

(** The same two steps on the head of a concatenation that goes on. *)
Lemma count_lit p a x rest n :
  prefixb p "" = false → clean_end p a = true → occurrences p a = n →
  occurrences p ((a +:+ x) +:+ rest) = (n + occurrences p (x +:+ rest))%nat.
Proof.
  intros Hp Ha <-. by rewrite StrFacts.app_assoc, occurrences_clean.
Qed.

Lemma count_value p v x rest :
  containsb p v = false → head_free p (x +:+ rest) = true →
  occurrences p ((v +:+ x) +:+ rest) = occurrences p (x +:+ rest).
Proof. intros Hv Hb. by rewrite StrFacts.app_assoc, occurrences_value. Qed.

Lemma count_last p a rest n :
  prefixb p "" = false → clean_end p a = true → occurrences p a = n →
  occurrences p (a +:+ rest) = (n + occurrences p rest)%nat.
Proof. intros Hp Ha <-. by apply occurrences_clean. Qed.

Ltac count_step :=
  first
    [ rewrite count_value by (first [assumption | reflexivity])
    | rewrite (count_lit _ _ _ _ 0%nat) by reflexivity
    | rewrite (count_lit _ _ _ _ 1%nat) by reflexivity ];
  cbn [Nat.add].

Ltac count_blocks :=
  repeat count_step;
  first [ rewrite (count_last _ _ _ 0%nat) by reflexivity
        | rewrite (count_last _ _ _ 1%nat) by reflexivity ];
  cbn [Nat.add].

Lemma item_block_items t h p d c a e rest :
  containsb "<item>" t = false → containsb "<item>" h = false →
  containsb "<item>" p = false → containsb "<item>" d = false →
  containsb "<item>" c = false → containsb "<item>" a = false →
  containsb "<item>" e = false →
  occurrences "<item>" (item_block t h p d c a e +:+ rest)
  = S (occurrences "<item>" rest).
Proof.
  intros. unfold item_block. count_blocks. reflexivity.
Qed.

Lemma item_block_channels t h p d c a e rest :
  containsb "<channel>" t = false → containsb "<channel>" h = false →
  containsb "<channel>" p = false → containsb "<channel>" d = false →
  containsb "<channel>" c = false → containsb "<channel>" a = false →
  containsb "<channel>" e = false →
  occurrences "<channel>" (item_block t h p d c a e +:+ rest)
  = occurrences "<channel>" rest.
Proof.
  intros. unfold item_block. count_blocks. reflexivity.
Qed.

Lemma channel_block_items t h d f l v c a i rest :
  containsb "<item>" t = false → containsb "<item>" h = false →
  containsb "<item>" d = false → containsb "<item>" f = false →
  containsb "<item>" l = false → containsb "<item>" v = false →
  containsb "<item>" c = false → containsb "<item>" a = false →
  containsb "<item>" i = false →
  occurrences "<item>" (channel_block t h d f l v c a i +:+ rest)
  = occurrences "<item>" rest.
Proof.
  intros. unfold channel_block. count_blocks. reflexivity.
Qed.

Lemma channel_block_channels t h d f l v c a i rest :
  containsb "<channel>" t = false → containsb "<channel>" h = false →
  containsb "<channel>" d = false → containsb "<channel>" f = false →
  containsb "<channel>" l = false → containsb "<channel>" v = false →
  containsb "<channel>" c = false → containsb "<channel>" a = false →
  containsb "<channel>" i = false →
  occurrences "<channel>" (channel_block t h d f l v c a i +:+ rest)
  = S (occurrences "<channel>" rest).
Proof.
  intros. unfold channel_block. count_blocks. reflexivity.
Qed.

(** ** Texts that never hold an element *)

Lemma lacks_first_not_contained c p s :
  Str.lacks c s = true → containsb (String c p) s = false.
Proof.
  induction s as [|a s IH]; [done|]. cbn [Str.lacks containsb prefixb].
  intros [Ha Hs]%andb_prop. apply negb_true_iff in Ha.
  rewrite Ascii.eqb_sym, Ha, IH by done. done.
Qed.

Lemma string_of_uint_lacks_lt u : Str.lacks "<" (NilEmpty.string_of_uint u) = true.
Proof. induction u; done. Qed.

Lemma decimal_lacks_lt n : Str.lacks "<" (Datetime.decimal n) = true.
Proof.
  unfold Datetime.decimal, NilZero.string_of_uint.
  destruct (N.to_uint (Z.to_N n)); try done; apply string_of_uint_lacks_lt.
Qed.

Lemma pad2_lacks_lt n : Str.lacks "<" (Datetime.pad2 n) = true.
Proof.
  unfold Datetime.pad2. destruct (n <? 10); [|apply decimal_lacks_lt].
  rewrite StrFacts.lacks_app, decimal_lacks_lt. done.
Qed.

Lemma nth_lacks c i l :
  forallb (Str.lacks c) l = true → Str.lacks c (nth i l "") = true.
Proof.
  revert i. induction l as [|x l IH]; intros [|i]; cbn; try done.
  - by intros [? _]%andb_prop.
  - intros [_ ?]%andb_prop. by apply IH.
Qed.

(** A formatted date holds no [<]. *)
Lemma strftime_lacks_lt dt :
  Str.lacks "<" (Datetime.strftime_rfc822 dt) = true.
Proof.
  unfold Datetime.strftime_rfc822.
  rewrite !StrFacts.lacks_app, !pad2_lacks_lt, decimal_lacks_lt.
  rewrite !nth_lacks by reflexivity. done.
Qed.

Lemma drop_app_length pre x : Re.drop (String.length pre) (pre +:+ x) = x.
Proof. induction pre as [|c pre IH]; [by destruct x|]. done. Qed.

Lemma closes_body_some body post :
  Str.lacks Str.nl body = true →
  is_Some (Tags.closes (body +:+ String ">" post)).
Proof.
  induction body as [|c body IH]; [by eexists|]. cbn [Str.lacks].
  intros [Hc Hb]%andb_prop. rewrite StrFacts.app_cons. cbn [Tags.closes].
  destruct (Ascii.eqb c ">"); [by eexists|].
  apply negb_true_iff in Hc. rewrite Hc.
  destruct (IH Hb) as [n ->]. by eexists.
Qed.

(** What stripping leaves holds no tag that lies on one line. *)
Lemma strip_tags_lacks_tag body e :
  Str.lacks Str.nl body = true →
  containsb (tag body) (strip_tags e) = false.
Proof.
  intros Hb. destruct (containsb (tag body) (strip_tags e)) eqn:E; [|done].
  apply containsb_spec in E as (pre & post & E).
  pose proof (TagsFacts.tag_free_sub e 0) as Hfree.
  fold (strip_tags e) in Hfree.
  apply (tag_free_drop _ (String.length pre)), tag_free_head in Hfree.
  rewrite E, drop_app_length in Hfree.
  unfold tag in Hfree. rewrite !StrFacts.app_assoc in Hfree.
  rewrite StrFacts.app_cons, StrFacts.app_nil_l in Hfree.
  cbn [Tags.tag_at] in Hfree. rewrite Ascii.eqb_refl in Hfree.
  destruct (closes_body_some body post Hb) as [n Hn].
  change (">" +:+ post) with (String ">" post) in Hfree.
  by rewrite Hn in Hfree.
Qed.

(** ** The blocks of a finished document *)

Lemma inputs_lack_config p h articles section key v :
  inputs_lack p h articles = true →
  (section, key) ∈ required_config →
  config_value h section key v →
  containsb p v = false.
Proof.
  unfold inputs_lack. intros [[_ H]%andb_prop _]%andb_prop Hin Hv.
  rewrite forallb_forall in H.
  specialize (H (section, key)). cbn [fst snd] in H.
  apply config_value_lookup in Hv. unfold config_lookup in H.
  rewrite Hv in H. apply negb_true_iff, H. by apply list_elem_of_In.
Qed.

Lemma item_of_lacks p h home_url contact author article block :
  article_lacks p h article = true →
  item_of h home_url contact author article block →
  ∃ t pl d e,
    block = item_block t home_url pl (Datetime.strftime_rfc822 d) contact
              author (strip_tags e)
    ∧ containsb p t = false ∧ containsb p pl = false.
Proof.
  unfold article_lacks.
  intros H (item & excerpt & meta & date & dt & title & permalink
            & Hitem & _ & Hmeta & _ & _ & Htitle & Hperm & ->).
  rewrite Hitem in H. cbn [field_lookup] in H. rewrite Htitle, Hmeta in H.
  cbn in H. rewrite Hperm in H. apply andb_prop in H as [H1 H2].
  exists title, permalink, dt, excerpt.
  split; [done|]. by rewrite <-!negb_true_iff.
Qed.

Lemma item_block_opens t h p d c a e :
  prefixb item_opening (item_block t h p d c a e) = true.
Proof. reflexivity. Qed.

Lemma item_block_closes t h p d c a e :
  Str.ends_with item_closing (item_block t h p d c a e).
Proof.
  unfold item_block, item_closing.
  repeat (first [apply ends_with_refl | apply ends_with_app_r]).
Qed.

Lemma channel_block_opens t h d f l v c a i :
  prefixb channel_opening (channel_block t h d f l v c a i) = true.
Proof. reflexivity. Qed.

Lemma join_items_count h home_url contact author articles blocks rest :
  containsb "<item>" home_url = false →
  containsb "<item>" contact = false →
  containsb "<item>" author = false →
  forallb (article_lacks "<item>" h) articles = true →
  Forall2 (item_of h home_url contact author) articles blocks →
  occurrences "<item>" (Str.join blocks +:+ rest)
  = (length articles + occurrences "<item>" rest)%nat.
Proof.
  intros Hh Hc Ha Hall Hb. induction Hb as [|article block articles blocks Hof _ IH].
  - done.
  - cbn [forallb] in Hall. apply andb_prop in Hall as [Hart Hall].
    destruct (item_of_lacks _ _ _ _ _ _ _ Hart Hof)
      as (t & pl & d & e & -> & Ht & Hpl).
    cbn [Str.join foldr length]. fold (Str.join blocks).
    rewrite StrFacts.app_assoc, item_block_items, IH; try done.
    + apply lacks_first_not_contained, strftime_lacks_lt.
    + by apply (strip_tags_lacks_tag "item").
Qed.

Lemma join_channels_count h home_url contact author articles blocks rest :
  containsb "<channel>" home_url = false →
  containsb "<channel>" contact = false →
  containsb "<channel>" author = false →
  forallb (article_lacks "<channel>" h) articles = true →
  Forall2 (item_of h home_url contact author) articles blocks →
  occurrences "<channel>" (Str.join blocks +:+ rest)
  = occurrences "<channel>" rest.
Proof.
  intros Hh Hc Ha Hall Hb. induction Hb as [|article block articles blocks Hof _ IH].
  - done.
  - cbn [forallb] in Hall. apply andb_prop in Hall as [Hart Hall].
    destruct (item_of_lacks _ _ _ _ _ _ _ Hart Hof)
      as (t & pl & d & e & -> & Ht & Hpl).
    cbn [Str.join foldr]. fold (Str.join blocks).
    rewrite StrFacts.app_assoc, item_block_channels, IH; try done.
    + apply lacks_first_not_contained, strftime_lacks_lt.
    + by apply (strip_tags_lacks_tag "channel").
Qed.

Lemma inputs_lack_parts p h now channel articles blocks :
  inputs_lack p h articles = true →
  feed_parts h now channel articles blocks →
  ∃ t u d l c a i,
    channel = channel_block t u d (Datetime.strftime_rfc822 now) l (version h)
                c a i
    ∧ Forall2 (item_of h u c a) articles blocks
    ∧ forallb (article_lacks p h) articles = true
    ∧ containsb p t = false ∧ containsb p u = false ∧ containsb p d = false
    ∧ containsb p l = false ∧ containsb p (version h) = false
    ∧ containsb p c = false ∧ containsb p a = false ∧ containsb p i = false.
Proof.
  intros Hl (t & d & u & l & c & a & i
             & Ht & Hd & Hu & Hlang & Hc & Ha & Hi & -> & _ & Hb).
  exists t, u, d, l, c, a, i. split; [done|]. split; [done|].
  pose proof Hl as Hl'. unfold inputs_lack in Hl'.
  apply andb_prop in Hl' as [[Hv _]%andb_prop Harts].
  apply negb_true_iff in Hv.
  split; [done|].
  repeat split; try done;
    (eapply (inputs_lack_config p h articles); [exact Hl| |eassumption]);
    unfold required_config; repeat constructor.
Qed.

(** C1. Whenever [generate_rss] produces a feed, the document is the root
    element, the channel header, one item block per identifier of the
    article index in the order of the index (a repeated identifier gives a
    repeated block, none is dropped or moved), and the closing text; each
    block is the item template filled from its article, opening with
    [<item>] and closing with [</item>]; with an empty index the document
    is the header and the closing text alone.  Read as plain text, the
    document holds exactly as many [<item>] openings as the index has
    identifiers, and exactly one [<channel>] opening, whenever none of the
    texts copied into it as they are (version, configuration values,
    titles and permalinks of the indexed articles) contains that opening
    itself; the document escapes nothing, so without this condition the
    counts can be larger. *)
Theorem feed_items_follow_index now w h' w' :
  generate_rss now w = (Ok h', w') →
  ∃ channel articles blocks feed,
    feed_parts (host w) now channel articles blocks
    ∧ built_feed h' = Some feed
    ∧ feed = rss_open +:+ channel +:+ Str.join blocks +:+ rss_close
    ∧ prefixb channel_opening channel = true
    ∧ length blocks = length articles
    ∧ (∀ i article, articles !! i = Some article →
         ∃ block home_url contact author,
           blocks !! i = Some block
           ∧ item_of (host w) home_url contact author article block
           ∧ prefixb item_opening block = true
           ∧ Str.ends_with item_closing block)
    ∧ (articles = [] → feed = rss_open +:+ channel +:+ rss_close)
    ∧ (inputs_lack "<item>" (host w) articles = true →
         occurrences "<item>" feed = length articles)
    ∧ (inputs_lack "<channel>" (host w) articles = true →
         occurrences "<channel>" feed = 1%nat).
Proof.
  intros (channel & articles & blocks & Hparts & -> & ->)%generate_rss_ok.
  exists channel, articles, blocks. eexists.
  split; [done|]. split; [apply built_feed_store|]. split; [done|].
  pose proof Hparts as Hparts'.
  destruct Hparts' as (title & description & home_url & language & contact
                       & author & image & _ & _ & _ & _ & _ & _ & _ & Hch & _ & Hb).
  split; [rewrite Hch; apply channel_block_opens|].
  split; [symmetry; by eapply Forall2_length|]. split; [|split; [|split]].
  - intros i article Hi.
    destruct (Forall2_lookup_l _ _ _ _ _ Hb Hi) as (block & ? & Hof).
    exists block, home_url, contact, author. split; [done|]. split; [done|].
    destruct Hof as (? & ? & ? & ? & ? & ? & ? & _ & _ & _ & _ & _ & _ & _ & ->).
    split; [apply item_block_opens|apply item_block_closes].
  - intros ->. by apply Forall2_nil_inv_l in Hb as ->.
  - intros Hl.
    destruct (inputs_lack_parts _ _ _ _ _ _ Hl Hparts)
      as (t & u & d & l & c & a & i & -> & Hitems & Harts & Hrest).
    destruct Hrest as (? & ? & ? & ? & ? & ? & ? & ?).
    rewrite (count_last "<item>" rss_open _ 0%nat) by reflexivity.
    rewrite channel_block_items; try done;
      [|apply lacks_first_not_contained, strftime_lacks_lt].
    rewrite (join_items_count (host w) u c a articles blocks) by done.
    cbn. lia.
  - intros Hl.
    destruct (inputs_lack_parts _ _ _ _ _ _ Hl Hparts)
      as (t & u & d & l & c & a & i & -> & Hitems & Harts & Hrest).
    destruct Hrest as (? & ? & ? & ? & ? & ? & ? & ?).
    rewrite (count_last "<channel>" rss_open _ 0%nat) by reflexivity.
    rewrite channel_block_channels; try done;
      [|apply lacks_first_not_contained, strftime_lacks_lt].
    rewrite (join_channels_count (host w) u c a articles blocks) by done.
    reflexivity.
Qed.

Lemma feed_items_follow_index_witness :
  generate_rss Sample.now Sample.three
  = (Ok Built.host_three, mk_world Built.host_three Sample.disk0)
  ∧ inputs_lack "<item>" (host Sample.three) ["b"; "a"; "b"] = true
  ∧ inputs_lack "<channel>" (host Sample.three) ["b"; "a"; "b"] = true
  ∧ ∃ channel articles blocks feed,
      feed_parts (host Sample.three) Sample.now channel articles blocks
      ∧ built_feed Built.host_three = Some feed
      ∧ feed = rss_open +:+ channel +:+ Str.join blocks +:+ rss_close
      ∧ prefixb channel_opening channel = true
      ∧ length blocks = length articles
      ∧ (∀ i article, articles !! i = Some article →
           ∃ block home_url contact author,
             blocks !! i = Some block
             ∧ item_of (host Sample.three) home_url contact author article
                 block
             ∧ prefixb item_opening block = true
             ∧ Str.ends_with item_closing block)
      ∧ (articles = [] → feed = rss_open +:+ channel +:+ rss_close)
      ∧ (inputs_lack "<item>" (host Sample.three) articles = true →
           occurrences "<item>" feed = length articles)
      ∧ (inputs_lack "<channel>" (host Sample.three) articles = true →
           occurrences "<channel>" feed = 1%nat).
Proof.
  assert (generate_rss Sample.now Sample.three
          = (Ok Built.host_three, mk_world Built.host_three Sample.disk0)) as H
    by (vm_compute; reflexivity).
  split; [exact H|].
  split; [vm_compute; reflexivity|]. split; [vm_compute; reflexivity|].
  exact (feed_items_follow_index _ _ _ _ H).
Defined.

(** A title that is itself markup: one identifier in the index, two
    [<item>] openings and two [</item>] closings in the document. *)
Lemma forged_title_two_items :
  ∃ h' feed,
    generate_rss Sample.now Sample3.forged_title
    = (Ok h', mk_world h' Sample.disk0)
    ∧ index_of (host Sample3.forged_title) ["a"]
    ∧ built_feed h' = Some feed
    ∧ occurrences "<item>" feed = 2%nat
    ∧ occurrences "</item>" feed = 2%nat.
Proof.
  eexists _, _. split; [vm_compute; reflexivity|].
  split; [eexists; split; vm_compute; reflexivity|].
  split; [vm_compute; reflexivity|].
  split; vm_compute; reflexivity.
Qed.
